(** * Smooth-pursuit experiment: trajectories, stimuli and the trial frame loop

    A shallow embedding of the trajectory / stimulus-update engine of the
    experiment (classes/utilities/utilities.py, classes/experiment/trajectory.py,
    classes/experiment/stimulus.py, classes/experiment/experiment_section.py).

    Python floats are idealised as real numbers: rounding, signed zeros,
    infinities and NaN are not modelled.  Python exceptions are modelled by an
    error monad; the psychopy drawables by the attributes the code reads and
    writes; clocks, the keyboard and the random generator by oracles indexed by
    the number of calls made so far. *)

From Stdlib Require Import Reals Lra Lia ZArith List String Bool Arith.
Import ListNotations.

Local Open Scope string_scope.
Local Open Scope R_scope.

Set Warnings "-register-all".

(** ** Python values, exceptions and the [math] functions that are used *)

Module Py.

Inductive exn : Type :=
| ValueError
| TypeError
| KeyError
| IndexError
| ZeroDivisionError
| UnboundLocalError
| SystemExit.

Inductive result (A : Type) : Type :=
| OK (a : A)
| Raise (e : exn).

Arguments OK {A} a.
Arguments Raise {A} e.

Definition bind {A B : Type} (m : result A) (f : A -> result B) : result B :=
  match m with
  | OK a => f a
  | Raise e => Raise e
  end.

(** [a / b] on floats: a zero divisor raises. *)
Definition div (a b : R) : result R :=
  if Req_EM_T b 0 then Raise ZeroDivisionError else OK (a / b).

(** [math.degrees] and [math.radians]. *)
Definition degrees (x : R) : R := x * (180 / PI).
Definition radians (x : R) : R := x * (PI / 180).

(** [math.atan2 y x]: the angle of the vector (x, y), in (-pi, pi], with
    atan2(0, 0) = 0. *)
Definition atan2 (y x : R) : R :=
  if Rlt_dec 0 x then atan (y / x)
  else if Rlt_dec x 0 then
         if Rle_dec 0 y then atan (y / x) + PI else atan (y / x) - PI
  else if Rlt_dec 0 y then PI / 2
  else if Rlt_dec y 0 then - (PI / 2)
  else 0.

(** The dynamically typed values that reach the constructors. *)
Inductive value : Type :=
| VNone
| VBool (b : bool)
| VInt (n : Z)
| VFloat (x : R)
| VStr (s : string)
| VList (l : list value)
| VDict (d : list (string * value)).

(** [isinstance(v, int)]: [bool] is a subclass of [int]. *)
Definition isinstance_int (v : value) : bool :=
  match v with
  | VInt _ | VBool _ => true
  | _ => false
  end.

Definition isinstance_float (v : value) : bool :=
  match v with
  | VFloat _ => true
  | _ => false
  end.

Definition isinstance_dict (v : value) : bool :=
  match v with
  | VDict _ => true
  | _ => false
  end.

(** [v in [s1, ..., sn]] for a list of string literals. *)
Definition in_strings (v : value) (l : list string) : bool :=
  match v with
  | VStr s => existsb (String.eqb s) l
  | _ => false
  end.

(** [key in d] for a dict. *)
Definition has_key (key : string) (d : list (string * value)) : bool :=
  existsb (fun kv => String.eqb key (fst kv)) d.

(** [d[key]]. *)
Fixpoint getitem (d : list (string * value)) (key : string) : result value :=
  match d with
  | [] => Raise KeyError
  | (k, v) :: d' => if String.eqb key k then OK v else getitem d' key
  end.

(** A value used as an operand of float arithmetic. *)
Definition to_real (v : value) : result R :=
  match v with
  | VInt n => OK (IZR n)
  | VBool b => OK (if b then 1 else 0)
  | VFloat x => OK x
  | _ => Raise TypeError
  end.

(** [v[1]] for a list. *)
Definition item1 (v : value) : result value :=
  match v with
  | VList (_ :: b :: _) => OK b
  | VList _ => Raise IndexError
  | _ => Raise TypeError
  end.

(** [sub in s] for strings. *)
Fixpoint contains (sub s : string) : bool :=
  if String.prefix sub s then true
  else match s with
       | EmptyString => false
       | String _ s' => contains sub s'
       end.

End Py.

Import Py.

Notation "x <- e ;; f" := (Py.bind e (fun x => f))
  (at level 61, e at next level, right associativity).
Notation "' pat <- e ;; f" := (Py.bind e (fun x => match x with pat => f end))
  (at level 61, pat pattern, e at next level, right associativity).

(** ** classes/utilities/utilities.py *)

Module Utilities.

(** The monitor settings that the conversions read: [monitor["distance"]],
    [monitor["height"]] and [monitor["resolution"][1]]. *)
Record Monitor : Type := mkMonitor {
  distance : R;
  height : R;
  resolution_1 : R
}.

Definition px_to_deg (px : R) (monitor : Monitor) : result R :=
  q <- div (degrees (atan2 (0.5 * height monitor) (distance monitor)))
           (0.5 * resolution_1 monitor) ;;
  OK (q * px).

Definition deg_to_px (deg : R) (monitor : Monitor) : result R :=
  q <- div deg (degrees (atan2 (0.5 * height monitor) (distance monitor))) ;;
  OK (q * (0.5 * resolution_1 monitor)).

(** The monitor dict as the two conversions read it. *)
Definition monitor_of_dict (d : list (string * value)) : result Monitor :=
  h <- getitem d "height" ;;
  h <- to_real h ;;
  dist <- getitem d "distance" ;;
  dist <- to_real dist ;;
  res <- getitem d "resolution" ;;
  r1 <- item1 res ;;
  r1 <- to_real r1 ;;
  OK (mkMonitor dist h r1).

End Utilities.

Import Utilities.

(** ** classes/experiment/trajectory.py *)

Module Trajectories.

(** The four subclasses of [Trajectory], each with the attributes its
    constructor sets.  The direction stays the string the code compares. *)
Inductive Trajectory : Type :=
| HorizontalTrajectory (distance_px_halfed : R) (direction : string)
| VerticalTrajectory (distance_px_halfed : R) (direction : string)
| DiagonalTrajectory (distance_px_halfed : R) (direction : string)
| CircularTrajectory (monitor : Monitor) (radius : R) (direction : string)
                     (start : R).

Definition str_of (v : value) : result string :=
  match v with
  | VStr s => OK s
  | _ => Raise TypeError
  end.

Definition HorizontalTrajectory_init (distance_px direction : value)
  : result Trajectory :=
  if negb (isinstance_float distance_px) && negb (isinstance_int distance_px)
  then Raise ValueError
  else if negb (in_strings direction ["left"; "right"])
  then Raise ValueError
  else d <- to_real distance_px ;;
       dir <- str_of direction ;;
       OK (HorizontalTrajectory (d / 2) dir).

Definition VerticalTrajectory_init (distance_px direction : value)
  : result Trajectory :=
  if negb (isinstance_float distance_px) && negb (isinstance_int distance_px)
  then Raise ValueError
  else if negb (in_strings direction ["up"; "down"])
  then Raise ValueError
  else d <- to_real distance_px ;;
       dir <- str_of direction ;;
       OK (VerticalTrajectory (d / 2) dir).

Definition DiagonalTrajectory_init (distance_px direction : value)
  : result Trajectory :=
  if negb (isinstance_float distance_px) && negb (isinstance_int distance_px)
  then Raise ValueError
  else if negb (in_strings direction
                  ["up_right"; "up_left"; "down_right"; "down_left"])
  then Raise ValueError
  else d <- to_real distance_px ;;
       dir <- str_of direction ;;
       OK (DiagonalTrajectory (d / 2) dir).

(** [self.radius] is first set to [px_to_deg(radius, monitor)] and then
    overwritten by [radius]; the conversion is still evaluated, and may
    raise. *)
Definition CircularTrajectory_init (radius direction start monitor : value)
  : result Trajectory :=
  if negb (isinstance_float radius) && negb (isinstance_int radius)
  then Raise ValueError
  else if negb (in_strings direction ["clockwise"; "counterclockwise"])
  then Raise ValueError
  else if negb (isinstance_float start) && negb (isinstance_int start)
  then Raise ValueError
  else match monitor with
       | VDict d =>
           if negb (has_key "distance" d) then Raise ValueError
           else if negb (has_key "resolution" d) then Raise ValueError
           else if negb (has_key "height" d) then Raise ValueError
           else r <- to_real radius ;;
                m <- monitor_of_dict d ;;
                _ <- px_to_deg r m ;;
                dir <- str_of direction ;;
                st <- to_real start ;;
                OK (CircularTrajectory m r dir st)
       | _ => Raise ValueError
       end.

Definition update_position (self : Trajectory) (current_position : R * R)
                           (time_step speed : R) : result (R * R) :=
  match self with
  | HorizontalTrajectory distance_px_halfed direction =>
      if String.eqb direction "left"
      then OK ((- speed * time_step) + distance_px_halfed,
               snd current_position)
      else OK (speed * time_step - distance_px_halfed, snd current_position)
  | VerticalTrajectory distance_px_halfed direction =>
      if String.eqb direction "up"
      then OK (fst current_position,
               (speed * time_step) - distance_px_halfed)
      else OK (fst current_position,
               (- speed * time_step) + distance_px_halfed)
  | DiagonalTrajectory distance_px_halfed direction =>
      if String.eqb direction "up_right"
      then OK ((speed * time_step) - distance_px_halfed,
               (speed * time_step) - distance_px_halfed)
      else if String.eqb direction "up_left"
      then OK ((- speed * time_step) + distance_px_halfed,
               (speed * time_step) - distance_px_halfed)
      else if String.eqb direction "down_right"
      then OK ((speed * time_step) - distance_px_halfed,
               (- speed * time_step) + distance_px_halfed)
      else OK ((- speed * time_step) + distance_px_halfed,
               (- speed * time_step) + distance_px_halfed)
  | CircularTrajectory monitor radius direction start =>
      if String.eqb direction "clockwise"
      then (* the first value of x is printed and overwritten *)
           sx <- deg_to_px speed monitor ;;
           let x := - radius * cos (radians (time_step * sx - start)) in
           sy <- deg_to_px speed monitor ;;
           let y := radius * sin (radians (time_step * sy - start)) in
           OK (x, y)
      else let x := radius * cos (radians (time_step * speed - start)) in
           let y := radius * sin (radians (time_step * speed - start)) in
           px <- deg_to_px x monitor ;;
           py <- deg_to_px y monitor ;;
           OK (px, py)
  end.

Definition update_orientation (self : Trajectory) (current_position : R * R)
                              (time_step speed : R) : result R :=
  next_position <- update_position self current_position time_step speed ;;
  OK (degrees (-1 * radians ((180 / PI) *
        atan2 (snd next_position - snd current_position)
              (fst next_position - fst current_position)))).

End Trajectories.

Import Trajectories.

(** ** classes/experiment/stimulus.py *)

Module Stimuli.

(** The [params] dict of [update]. *)
Record Params : Type := mkParams {
  current_time : R;
  current_frame : Z;
  final_update : bool
}.

(** [visual.Circle]: the attributes that [update] writes. *)
Record Circle : Type := mkCircle {
  pos : R * R;
  ori : R
}.

Record MovingCircle : Type := mkMovingCircle {
  target : Circle;
  speed : R;
  trajectory : Trajectory
}.

Definition MovingCircle_update (self : MovingCircle) (params : Params)
  : result (MovingCircle * (R * R)) :=
  let current_time := current_time params in
  p <- update_position (trajectory self) (pos (target self)) current_time
                       (speed self) ;;
  o <- update_orientation (trajectory self) p current_time (speed self) ;;
  OK (mkMovingCircle (mkCircle p o) (speed self) (trajectory self), p).

(** A [JumpingCircle] is a [MovingCircle] with an [update_frequency]
    ([None] means never). *)
Record JumpingCircle : Type := mkJumpingCircle {
  circle : MovingCircle;
  update_frequency : option Z
}.

(** [current_frame % update_frequency]: a zero modulus raises. *)
Definition pymod (a b : Z) : result Z :=
  if (b =? 0)%Z then Raise ZeroDivisionError else OK (a mod b)%Z.

Definition JumpingCircle_update (self : JumpingCircle) (params : Params)
  : result (JumpingCircle * (R * R)) :=
  match update_frequency self with
  | Some k =>
      let current_frame := current_frame params in
      let final_update := final_update params in
      m <- pymod current_frame k ;;
      if (m =? 0)%Z || (current_frame =? 1)%Z || final_update
      then '(c, _) <- MovingCircle_update (circle self) params ;;
           OK (mkJumpingCircle c (update_frequency self), pos (target c))
      else OK (self, pos (target (circle self)))
  | None => OK (self, pos (target (circle self)))
  end.

(** [visual.ElementArrayStim] with one element, as [BackAndForthArray] uses
    it. *)
Record ElementArray : Type := mkElementArray {
  fieldPos : R * R;
  fieldSize : R * R;
  xys : list (R * R)
}.

Record BackAndForthArray : Type := mkBackAndForthArray {
  array_target : ElementArray;
  array_speed : R;
  array_trajectory : Trajectory;
  array_update_frequency : option Z;
  back : bool
}.

(** The [back] and [forth] offsets of [update_xys]. *)
Definition back_and_forth (self : BackAndForthArray)
  : result (list (R * R) * list (R * R)) :=
  let fs := fieldSize (array_target self) in
  match array_trajectory self with
  | HorizontalTrajectory _ _ =>
      OK ([(- fst fs, 0)], [(fst fs, 0)])
  | VerticalTrajectory _ _ =>
      OK ([(0, - snd fs)], [(0, snd fs)])
  | DiagonalTrajectory _ direction =>
      if String.eqb direction "up_right"
      then OK ([(- fst fs, - snd fs)], [(fst fs, snd fs)])
      else if String.eqb direction "up_left"
      then OK ([(fst fs, - snd fs)], [(- fst fs, snd fs)])
      else if String.eqb direction "down_right"
      then OK ([(- fst fs, snd fs)], [(fst fs, - snd fs)])
      else if String.eqb direction "down_left"
      then OK ([(fst fs, snd fs)], [(- fst fs, - snd fs)])
      else Raise UnboundLocalError
  | CircularTrajectory _ _ _ _ =>
      let current_pos := fieldPos (array_target self) in
      let center := (0, 0) in
      let deg := degrees (atan2 (snd current_pos - snd center)
                                (fst current_pos - fst center)) in
      let tangent_angle := deg + 90 in
      let tangent_start_x := - fst fs * cos (radians tangent_angle) in
      let tangent_start_y := - snd fs * sin (radians tangent_angle) in
      let tangent_end_x := fst fs * cos (radians tangent_angle) in
      let tangent_end_y := - snd fs * sin (radians tangent_angle) in
      OK ([(tangent_start_x, tangent_start_y)],
          [(tangent_end_x, tangent_end_y)])
  end.

Definition set_xys (self : BackAndForthArray) (v : list (R * R)) (b : bool)
  : BackAndForthArray :=
  mkBackAndForthArray
    (mkElementArray (fieldPos (array_target self))
                    (fieldSize (array_target self)) v)
    (array_speed self) (array_trajectory self)
    (array_update_frequency self) b.

Definition update_xys (self : BackAndForthArray) : result BackAndForthArray :=
  '(back_xys, forth_xys) <- back_and_forth self ;;
  if back self
  then OK (set_xys self back_xys false)
  else OK (set_xys self forth_xys true).

Definition set_fieldPos (self : BackAndForthArray) (p : R * R)
  : BackAndForthArray :=
  mkBackAndForthArray
    (mkElementArray p (fieldSize (array_target self))
                    (xys (array_target self)))
    (array_speed self) (array_trajectory self)
    (array_update_frequency self) (back self).

Definition BackAndForthArray_update (self : BackAndForthArray)
                                    (params : Params)
  : result (BackAndForthArray * (R * R)) :=
  let current_time := current_time params in
  p <- update_position (array_trajectory self)
                       (fieldPos (array_target self)) current_time
                       (array_speed self) ;;
  let self1 := set_fieldPos self p in
  self2 <- match array_update_frequency self1 with
           | Some k =>
               let current_frame := current_frame params in
               m <- pymod current_frame k ;;
               if (m =? 0)%Z || (current_frame =? 1)%Z
               then update_xys self1
               else OK self1
           | None => OK self1
           end ;;
  match xys (array_target self2) with
  | e :: _ =>
      let x := fst (fieldPos (array_target self2)) - fst e in
      let y := snd (fieldPos (array_target self2)) - snd e in
      OK (self2, (x, y))
  | [] => Raise IndexError
  end.

(** [SwarmStimulus]: [n] element slots of which [n_active] are to be visible;
    [opacities] is [target.opacities]. *)
Record SwarmStimulus : Type := mkSwarmStimulus {
  n : Z;
  n_active : Z;
  swarm_update_frequency : option Z;
  opacities : list Z
}.

(** [l[j] = v] *)
Fixpoint setitem (l : list Z) (j : nat) (v : Z) : result (list Z) :=
  match l, j with
  | [], _ => Raise IndexError
  | _ :: l', O => OK (v :: l')
  | x :: l', S j' => l'' <- setitem l' j' v ;; OK (x :: l'')
  end.

Section Swarm.

(** The random generator: [random i] decides the outcome of the [i]-th draw
    made since the start of the program; a function threads the number of
    draws made so far. *)
Variable random : nat -> nat.

(** [choice(range(n), replace = False)] without a size: one index of
    [range(n)]; an empty range raises. *)
Definition choice (n : Z) (draws : nat) : result (nat * nat) :=
  if (n <=? 0)%Z then Raise ValueError
  else OK ((random draws mod Z.to_nat n)%nat, S draws).

(** [for i in range(count): j = choice(range(n), replace = False);
    opacities[j] = 1] *)
Fixpoint turn_on (count : nat) (n : Z) (opacities : list Z) (draws : nat)
  : result (list Z * nat) :=
  match count with
  | O => OK (opacities, draws)
  | S count' =>
      '(j, draws') <- choice n draws ;;
      opacities' <- setitem opacities j 1%Z ;;
      turn_on count' n opacities' draws'
  end.

(** [self.target.opacities = 0] followed by the loop that turns elements
    on. *)
Definition resample (self : SwarmStimulus) (draws : nat)
  : result (SwarmStimulus * nat) :=
  let zeros := repeat 0%Z (Z.to_nat (n self)) in
  '(ops, draws') <- turn_on (Z.to_nat (n_active self)) (n self) zeros draws ;;
  OK (mkSwarmStimulus (n self) (n_active self) (swarm_update_frequency self)
                      ops, draws').

(** [visual.ElementArrayStim(window, nElements = n, ...)]: the library
    builds the array of [n] elements or raises; what it does for a given
    number of elements is not in the sources, and is a parameter here. *)
Variable ElementArrayStim : Z -> result unit.

(** [SwarmStimulus.__init__] after its checks of the arguments: the array is
    built, then its opacities are set to 0 and the active elements are
    turned on. *)
Definition SwarmStimulus_init (n_elements n_active : Z)
                              (update_frequency : option Z) (draws : nat)
  : result (SwarmStimulus * nat) :=
  _ <- ElementArrayStim n_elements ;;
  resample (mkSwarmStimulus n_elements n_active update_frequency []) draws.

Definition SwarmStimulus_update (self : SwarmStimulus) (params : Params)
                                (draws : nat)
  : result (SwarmStimulus * nat) :=
  match swarm_update_frequency self with
  | Some k =>
      let current_frame := current_frame params in
      m <- pymod current_frame k ;;
      if (m =? 0)%Z then resample self draws else OK (self, draws)
  | None => OK (self, draws)
  end.

End Swarm.

(** The number of visible elements. *)
Definition visible (opacities : list Z) : nat :=
  count_occ Z.eq_dec opacities 1%Z.

End Stimuli.

Import Stimuli.

(** ** classes/experiment/experiment_section.py *)

Module TrialSection.

(** The entries of [settings] that the trial reads. *)
Record Settings : Type := mkSettings {
  monitor : Monitor;
  moving_distance : R;
  max_seconds : R
}.

(** [initialize_stimulus], up to the choice of the trajectory: it returns
    the required seconds [self.req_sec] and the speed that is handed to the
    stimulus. *)
Definition initialize_stimulus (settings : Settings)
                                      (target_speed : R)
                                      (target_trajectory : string)
  : result (R * R) :=
  let speed_ang := target_speed in
  speed_px <- deg_to_px speed_ang (monitor settings) ;;
  moving_distance <- deg_to_px (moving_distance settings)
                               (monitor settings) ;;
  req_sec <- div moving_distance speed_px ;;
  let req_sec := if Rlt_dec (max_seconds settings) req_sec
                 then max_seconds settings else req_sec in
  let speed := speed_px in
  if contains "cir" target_trajectory
  then let circumference := 2 * PI * distance (monitor settings) in
       distance_per_rotation_deg <-
         div (degrees circumference) (distance (monitor settings)) ;;
       time_per_rotation_sec <- div 360 speed_ang ;;
       rotations <- div 360 distance_per_rotation_deg ;;
       OK (time_per_rotation_sec * rotations, speed_ang)
  else OK (req_sec, speed).

(** A row of the log: the static entries of [self.data] and the four
    entries written in every frame. *)
Record Row (M : Type) : Type := mkRow {
  static : M;
  experiment_time : R;
  trial_time : R;
  target_x : R;
  target_y : R
}.

Arguments mkRow {M}.
Arguments static {M}.
Arguments experiment_time {M}.
Arguments trial_time {M}.
Arguments target_x {M}.
Arguments target_y {M}.

(** What the trial does to its collaborators, in order. *)
Inductive Event (S : Type) : Type :=
| EStartTrial (trial_number : Z)
| EUpdate (params : Params)
| EDraw (stimulus : S)
| EExtraDraw (i : nat)
| EFlip
| EClearEvents
| EWait (seconds : R)
| EEndTrial (trial_number : Z).

Arguments EStartTrial {S}.
Arguments EUpdate {S}.
Arguments EDraw {S}.
Arguments EExtraDraw {S}.
Arguments EFlip {S}.
Arguments EClearEvents {S}.
Arguments EWait {S}.
Arguments EEndTrial {S}.

Section MoveTarget.

(** The stimulus of the trial: its state and its [update]. *)
Variable S : Type.
Variable update : S -> Params -> result (S * (R * R)).

(** The static entries of [self.data]. *)
Variable M : Type.

(** The clocks and the keyboard: the reading of the [i]-th call of
    [trial_clock.getTime()] and of [experiment_clock.getTime()], and whether
    the quit key is among the keys of the [i]-th [event.getKeys()]. *)
Variable trial_clock : nat -> R.
Variable experiment_clock : nat -> R.
Variable quit_pressed : nat -> bool.

(** The attributes of the section that [move_target] reads, the number of
    readings and polls made so far, and the log of what was done. *)
Record SPTrialSection : Type := mkSPTrialSection {
  stimulus : S;
  data : M;
  trial_number : Z;
  req_sec : R;
  time_offset : R;
  experiment_clock_calls : nat;
  key_polls : nat;
  log : list (Event S)
}.

(** The section after the events [es], with stimulus [s] and the counters
    of the experiment clock and of the keyboard at [ec] and [kp]. *)
Definition emit (self : SPTrialSection) (es : list (Event S)) (s : S)
                (ec kp : nat) : SPTrialSection :=
  mkSPTrialSection s (data self) (trial_number self) (req_sec self)
            (time_offset self) ec kp (log self ++ es)%list.

(** The [while] loop of [move_target]; [calls] counts the readings of the
    trial clock, [fuel] bounds the number of iterations ([None] when it runs
    out).  A pressed quit key ends the session: [end_session] exits the
    process. *)
Fixpoint frame_loop (fuel : nat) (extra_draws : nat) (self : SPTrialSection)
                    (calls : nat) (frame : Z) (rows : list (Row M))
  : option (result (SPTrialSection * nat * Z * list (Row M))) :=
  match fuel with
  | O => None
  | Datatypes.S fuel' =>
      if Rlt_dec (trial_clock calls) (req_sec self)
      then
        let frame := (frame + 1)%Z in
        let params := mkParams (trial_clock (calls + 1)%nat + time_offset self)
                               frame false in
        match update (stimulus self) params with
        | Raise e => Some (Raise e)
        | OK (s, target_position) =>
            let drawn := ([EUpdate params; EDraw s]
                          ++ map EExtraDraw (seq 0%nat extra_draws)
                          ++ [EFlip])%list in
            let row := mkRow (data self)
                             (experiment_clock (experiment_clock_calls self))
                             (trial_clock (calls + 2)%nat)
                             (fst target_position) (snd target_position) in
            let rows := (rows ++ [row])%list in
            if quit_pressed (key_polls self)
            then Some (Raise SystemExit)
            else frame_loop fuel' extra_draws
                   (emit self (drawn ++ [EClearEvents])%list s
                         (experiment_clock_calls self + 1)%nat
                         (key_polls self + 1)%nat)
                   (calls + 3)%nat frame rows
        end
      else Some (OK (self, (calls + 1)%nat, frame, rows))
  end.

Definition move_target (fuel : nat) (extra_draws : nat) (self : SPTrialSection)
  : option (result (SPTrialSection * list (Row M))) :=
  let rows := [] in
  let frame := 0%Z in
  let self := emit self [EStartTrial (trial_number self)] (stimulus self)
                   (experiment_clock_calls self) (key_polls self) in
  match frame_loop fuel extra_draws self 0%nat frame rows with
  | None => None
  | Some (Raise e) => Some (Raise e)
  | Some (OK (self, calls, frame, rows)) =>
      let params := mkParams (trial_clock calls + time_offset self)
                             frame true in
      match update (stimulus self) params with
      | Raise e => Some (Raise e)
      | OK (s, target_position) =>
          Some (OK (emit self [EUpdate params; EDraw s; EFlip; EWait 0.2;
                               EEndTrial (trial_number self)] s
                         (experiment_clock_calls self) (key_polls self),
                    rows))
      end
  end.

End MoveTarget.

Arguments mkSPTrialSection {S M}.
Arguments stimulus {S M}.
Arguments data {S M}.
Arguments trial_number {S M}.
Arguments req_sec {S M}.
Arguments time_offset {S M}.
Arguments experiment_clock_calls {S M}.
Arguments key_polls {S M}.
Arguments log {S M}.
Arguments emit {S M}.

End TrialSection.

Import TrialSection.

(** ** classes/experiment/experiment_section.py: the rest of the trial section *)

Module TrialSetup.




(** The three stimuli a trial can hold. *)
Inductive Target : Type :=
| TMovingCircle (c : MovingCircle)
| TJumpingCircle (j : JumpingCircle)
| TBackAndForthArray (a : BackAndForthArray).

(** [self.stimulus.pos] (the position given to the constructor, which no
    update changes) and the stimulus. *)
Definition Stimulus : Type := ((R * R) * Target)%type.



(** [self.stimulus.update(params)] *)
Definition Target_update (self : Target) (params : Params)
  : result (Target * (R * R)) :=
  match self with
  | TMovingCircle c =>
      '(c', p) <- MovingCircle_update c params ;; OK (TMovingCircle c', p)
  | TJumpingCircle j =>
      '(j', p) <- JumpingCircle_update j params ;; OK (TJumpingCircle j', p)
  | TBackAndForthArray a =>
      '(a', p) <- BackAndForthArray_update a params ;;
      OK (TBackAndForthArray a', p)
  end.

Definition Stimulus_update (self : Stimulus) (params : Params)
  : result (Stimulus * (R * R)) :=
  '(t, p) <- Target_update (snd self) params ;; OK ((fst self, t), p).

(** The arrow of [draw_instruction_arrow]: the vertices handed to
    [visual.ShapeStim], the two of the line and the three of the tip. *)
Definition draw_instruction_arrow (start_pos : R * R) (length : R)
    (trajectory : string) : result (list (R * R)) :=
  let valid_trajectories :=
    ["hor_right"; "hor_left"; "ver_up"; "ver_down"; "diag_up_right";
     "diag_up_left"; "diag_down_right"; "diag_down_left"] in
  if negb (existsb (String.eqb trajectory) valid_trajectories)
  then Raise ValueError
  else
    let tip_length := 0.3 * length in
    let tip_width := 0.1 * length in
    let arrow (end_pos : R * R) (tip_vertices : list (R * R)) :=
      let line_vertices := [start_pos; end_pos] in
      OK (line_vertices ++ tip_vertices)%list in
    if String.eqb trajectory "hor_right"
    then let end_pos := (fst start_pos + length, snd start_pos) in
         arrow end_pos
           [(fst end_pos - tip_length, snd end_pos + tip_width); end_pos;
            (fst end_pos - tip_length, snd end_pos - tip_width)]
    else if String.eqb trajectory "hor_left"
    then let end_pos := (fst start_pos - length, snd start_pos) in
         arrow end_pos
           [(fst end_pos + tip_length, snd end_pos + tip_width); end_pos;
            (fst end_pos + tip_length, snd end_pos - tip_width)]
    else if String.eqb trajectory "ver_up"
    then let end_pos := (fst start_pos, snd start_pos + length) in
         arrow end_pos
           [(fst end_pos - tip_width, snd end_pos - tip_length); end_pos;
            (fst end_pos + tip_width, snd end_pos - tip_length)]
    else if String.eqb trajectory "ver_down"
    then let end_pos := (fst start_pos, snd start_pos - length) in
         arrow end_pos
           [(fst end_pos - tip_width, snd end_pos + tip_length); end_pos;
            (fst end_pos + tip_width, snd end_pos + tip_length)]
    else if String.eqb trajectory "diag_up_right"
    then let end_pos := (fst start_pos + length, snd start_pos + length) in
         arrow end_pos
           [(fst end_pos - tip_length, snd end_pos - tip_width); end_pos;
            (fst end_pos - tip_width, snd end_pos - tip_length)]
    else if String.eqb trajectory "diag_up_left"
    then let end_pos := (fst start_pos - length, snd start_pos + length) in
         arrow end_pos
           [(fst end_pos + tip_length, snd end_pos - tip_width); end_pos;
            (fst end_pos + tip_width, snd end_pos - tip_length)]
    else if String.eqb trajectory "diag_down_right"
    then let end_pos := (fst start_pos + length, snd start_pos - length) in
         arrow end_pos
           [(fst end_pos - tip_length, snd end_pos + tip_width); end_pos;
            (fst end_pos - tip_width, snd end_pos + tip_length)]
    else if String.eqb trajectory "diag_down_left"
    then let end_pos := (fst start_pos - length, snd start_pos - length) in
         arrow end_pos
           [(fst end_pos + tip_length, snd end_pos + tip_width); end_pos;
            (fst end_pos + tip_width, snd end_pos + tip_length)]
    else Raise UnboundLocalError.

(** [get_instruction_settings]: the offsets of the arrow and the two texts;
    a name without a branch leaves its text unbound. *)
Definition get_instruction_settings (target_trajectory target_type : string)
  : result (R * R * string * string) :=
  let offset := 50 in
  let x_offset := 0 in
  let y_offset := 0 in
  '(x_offset, y_offset, trajectory_text) <-
    (if String.eqb target_trajectory "hor_right"
     then OK (offset, y_offset, Some "horizontally to the right")
     else if String.eqb target_trajectory "hor_left"
     then OK (- offset, y_offset, Some "horizontally to the left")
     else if String.eqb target_trajectory "ver_up"
     then OK (x_offset, offset, Some "vertically upwards")
     else if String.eqb target_trajectory "ver_down"
     then OK (x_offset, - offset, Some "vertically downwards")
     else if String.eqb target_trajectory "diag_up_right"
     then OK (offset, offset, Some "diagonally upwards to the right")
     else if String.eqb target_trajectory "diag_up_left"
     then OK (- offset, offset, Some "diagonally upwards to the left")
     else if String.eqb target_trajectory "diag_down_right"
     then OK (offset, - offset, Some "diagonally downwards to the right")
     else if String.eqb target_trajectory "diag_down_left"
     then OK (- offset, - offset, Some "diagonally downwards to the left")
     else if String.eqb target_trajectory "cir_clock"
     then OK (x_offset, y_offset, Some "in a clockwise circle")
     else if String.eqb target_trajectory "cir_counter"
     then OK (x_offset, y_offset, Some "in a counterclockwise circle")
     else OK (x_offset, y_offset, None)) ;;
  let movement_text :=
    if String.eqb target_type "moving_circle"
    then Some "moves consistently"
    else if String.eqb target_type "jumping_circle"
    then Some "jumps"
    else if String.eqb target_type "back_and_forth_array"
    then Some "jumps back and forth, while moving"
    else None in
  match trajectory_text, movement_text with
  | Some trajectory_text, Some movement_text =>
      OK (x_offset, y_offset, trajectory_text, movement_text)
  | _, _ => Raise UnboundLocalError
  end.

(** [draw_instruction_target]: the update of frame 0 at the time offset. *)
Definition draw_instruction_target (stimulus : Stimulus) (time_offset : R)
  : result Stimulus :=
  let params := mkParams time_offset 0 false in
  '(s, _) <- Stimulus_update stimulus params ;; OK s.

(** [draw_arrow_and_target]: the vertices of the arrow that is drawn and the
    stimulus after its update. *)
Definition draw_arrow_and_target (stimulus : Stimulus)
    (target_trajectory target_type : string) (time_offset : R)
  : result (list (R * R) * Stimulus) :=
  '(x_offset, y_offset, trajectory_text, movement_text) <-
    get_instruction_settings target_trajectory target_type ;;
  let arrow_start_pos :=
    (fst (fst stimulus) + x_offset, snd (fst stimulus) + y_offset) in
  vertices <- draw_instruction_arrow arrow_start_pos 100 target_trajectory ;;
  s <- draw_instruction_target stimulus time_offset ;;
  OK (vertices, s).

End TrialSetup.

Import TrialSetup.

(** ** Vocabulary of the statements and sample inputs *)

(** A monitor with positive distance, height and vertical resolution. *)
Definition positive_geometry (m : Monitor) : Prop :=
  0 < distance m /\ 0 < height m /\ 0 < resolution_1 m.

(** The visual angle of half the screen, in degrees: the constant both
    conversions divide or multiply by. *)
Definition half_screen_angle (m : Monitor) : R :=
  degrees (atan2 (0.5 * height m) (distance m)).

Ltac case_if :=
  match goal with
  | |- context [if ?c then _ else _] => destruct c
  end.

(** A monitor on which half the screen spans 45 degrees and 45 pixels, so
    that one degree is one pixel. *)
Definition unit_monitor : Monitor := mkMonitor 1 2 90.

(** The same screen with twice the resolution: one degree is two pixels. *)
Definition double_monitor : Monitor := mkMonitor 1 2 180.

(** Settings of the unit monitor with a travel of 800 degrees (800 pixels). *)
Definition example_settings (max_seconds : R) : Settings :=
  mkSettings unit_monitor 800 max_seconds.

(** [isinstance(v, float) or isinstance(v, int)] *)
Definition numeric (v : value) : bool :=
  isinstance_float v || isinstance_int v.

(** A dict with the keys "distance", "resolution" and "height". *)
Definition monitor_record (v : value) : bool :=
  match v with
  | VDict d =>
      has_key "distance" d && has_key "resolution" d && has_key "height" d
  | _ => false
  end.

(** The angle that [update_orientation] assigns to a movement vector. *)
Definition bearing (v : R * R) : R :=
  degrees (-1 * radians ((180 / PI) * atan2 (snd v) (fst v))).

(** Horizontal, vertical and diagonal trajectories. *)
Definition non_circular (t : Trajectory) : bool :=
  match t with
  | CircularTrajectory _ _ _ _ => false
  | _ => true
  end.

(** A circle at the start of a vertical travel of 100 pixels, going up at 10
    pixels per second. *)
Definition rising_circle : MovingCircle :=
  mkMovingCircle (mkCircle (0, -50) 0) 10 (VerticalTrajectory 50 "up").



(** A jumping circle at the start of a horizontal travel of 100 pixels to
    the right, that jumps every third frame. *)
Definition resting_jumper : JumpingCircle :=
  mkJumpingCircle
    (mkMovingCircle (mkCircle (-50, 0) 0) 10
                    (HorizontalTrajectory 50 "right"))
    (Some 3%Z).

(** A generator whose draws all give index 0. *)
Definition constant_draws : nat -> nat := fun _ => 0%nat.

(** A library that builds the element array for any number of elements. *)
Definition elements_built : Z -> result unit := fun _ => OK tt.

(** The gate of [JumpingCircle.update]. *)
Definition jump_gate (k frame : Z) (final : bool) : bool :=
  (frame mod k =? 0)%Z || (frame =? 1)%Z || final.

(** The swarm resamples exactly when the gate of the jumping circle is
    open. *)
Definition swarm_follows_jump_gate : Prop :=
  forall random self params draws k,
    swarm_update_frequency self = Some k -> (0 < k)%Z ->
    SwarmStimulus_update random self params draws =
      if jump_gate k (current_frame params) (final_update params)
      then resample random self draws
      else OK (self, draws).

(** The array recomputes its offsets exactly when the gate of the jumping
    circle is open. *)
Definition array_follows_jump_gate : Prop :=
  forall self params k self' p,
    array_update_frequency self = Some k -> (0 < k)%Z ->
    BackAndForthArray_update self params = OK (self', p) ->
    if jump_gate k (current_frame params) (final_update params)
    then update_xys (set_fieldPos self (fieldPos (array_target self')))
           = OK self'
    else xys (array_target self') = xys (array_target self) /\
         back self' = back self.

(** A swarm of three slots with one visible element, resampled every third
    frame. *)
Definition small_swarm : SwarmStimulus :=
  mkSwarmStimulus 3 1 (Some 3%Z) [1%Z; 0%Z; 0%Z].

(** An array on a horizontal travel of 100 pixels to the right, at its
    start, that toggles every third frame. *)
Definition small_array : BackAndForthArray :=
  mkBackAndForthArray (mkElementArray (-50, 0) (40, 40) [(0, 0)]) 10
                      (HorizontalTrajectory 50 "right") (Some 3%Z) true.

(** The parameters of the updates issued in a log, in order. *)
Fixpoint updates_of {S : Type} (es : list (Event S)) : list Params :=
  match es with
  | [] => []
  | EUpdate p :: es' => p :: updates_of es'
  | _ :: es' => updates_of es'
  end.

(** The positions returned by a sequence of updates, and the stimulus they
    leave. *)
Fixpoint run_updates {S : Type}
    (update : S -> Params -> result (S * (R * R))) (s : S)
    (ps : list Params) : result (S * list (R * R)) :=
  match ps with
  | [] => OK (s, [])
  | p :: ps' =>
      '(s', q) <- update s p ;;
      '(s'', qs) <- run_updates update s' ps' ;;
      OK (s'', q :: qs)
  end.

(** The position a row holds. *)
Definition row_position {M : Type} (r : Row M) : R * R :=
  (target_x r, target_y r).

(** The last row of a completed trial holds the position returned by the
    last update that was issued, the final one. *)
Definition final_position_is_logged : Prop :=
  forall (S M : Type) (update : S -> Params -> result (S * (R * R)))
         (trial_clock experiment_clock : nat -> R)
         (quit_pressed : nat -> bool) (fuel extra_draws : nat)
         (self self' : SPTrialSection S M) (rows : list (Row M)) (s : S)
         (positions : list (R * R)),
    log self = [] ->
    move_target S update M trial_clock experiment_clock quit_pressed fuel
                extra_draws self = Some (OK (self', rows)) ->
    run_updates update (stimulus self) (updates_of (log self'))
      = OK (s, positions) ->
    exists rows0 row positions0,
      rows = (rows0 ++ [row])%list /\
      positions = (positions0 ++ [row_position row])%list.

(** A trial clock that is read at 0, 0.5, 0.6, 1.2 and 1.3 seconds. *)
Definition sample_clock (i : nat) : R :=
  match i with
  | 0%nat => 0
  | 1%nat => 0.5
  | 2%nat => 0.6
  | 3%nat => 1.2
  | _ => 1.3
  end.

(** A trial of one second with a circle that moves to the right at 10
    pixels per second along 100 pixels. *)
Definition sample_trial : SPTrialSection MovingCircle unit :=
  mkSPTrialSection
    (mkMovingCircle (mkCircle (-50, 0) 0) 10 (HorizontalTrajectory 50 "right"))
    tt 7%Z 1 0 0%nat 0%nat [].

(** The circle of the sample trial after the update of its only frame and
    after the final update. *)
Definition sample_circle (t : R) : MovingCircle :=
  mkMovingCircle (mkCircle (10 * (t + 0) - 50, 0) 0) 10
                 (HorizontalTrajectory 50 "right").

(** The row of the only frame of the sample trial. *)
Definition sample_row : Row unit :=
  mkRow tt 0 0.6 (10 * (0.5 + 0) - 50) 0.

(** The sample trial when it returns. *)
Definition sample_end : SPTrialSection MovingCircle unit :=
  mkSPTrialSection (sample_circle 1.3) tt 7%Z 1 0 1%nat 1%nat
    [EStartTrial 7%Z;
     EUpdate (mkParams (0.5 + 0) 1 false); EDraw (sample_circle 0.5);
     EFlip; EClearEvents;
     EUpdate (mkParams (1.3 + 0) 1 true); EDraw (sample_circle 1.3);
     EFlip; EWait 0.2; EEndTrial 7%Z].

(** Pixels per degree of a monitor. *)
Definition pixels_per_degree (m : Monitor) : R :=
  0.5 * resolution_1 m / half_screen_angle m.

(** The sign of the motion on each axis; 0 on an axis that the trajectory
    leaves as it is.  Any string but the first of its kind takes the last
    branch, as in [update_position]. *)
Definition direction_vector (t : Trajectory) : R * R :=
  match t with
  | HorizontalTrajectory _ direction =>
      if String.eqb direction "left" then (-1, 0) else (1, 0)
  | VerticalTrajectory _ direction =>
      if String.eqb direction "up" then (0, 1) else (0, -1)
  | DiagonalTrajectory _ direction =>
      if String.eqb direction "up_right" then (1, 1)
      else if String.eqb direction "up_left" then (-1, 1)
      else if String.eqb direction "down_right" then (1, -1)
      else (-1, -1)
  | CircularTrajectory _ _ _ _ => (0, 0)
  end.

(** [self.distance_px_halfed], or the radius of a circular trajectory. *)
Definition half_distance (t : Trajectory) : R :=
  match t with
  | HorizontalTrajectory h _ | VerticalTrajectory h _
  | DiagonalTrajectory h _ => h
  | CircularTrajectory _ r _ _ => r
  end.

(** A diagonal trajectory with one of its four directions; any other
    trajectory. *)
Definition known_direction (t : Trajectory) : bool :=
  match t with
  | DiagonalTrajectory _ direction =>
      existsb (String.eqb direction)
              ["up_right"; "up_left"; "down_right"; "down_left"]
  | _ => true
  end.

(** The indices drawn by [count] successive calls of [choice] on
    [range(n)], from draw number [draws] on. *)
Fixpoint drawn (random : nat -> nat) (n : Z) (draws count : nat)
  : list nat :=
  match count with
  | O => []
  | S count' =>
      (random draws mod Z.to_nat n)%nat :: drawn random n (S draws) count'
  end.

(** The parameters of the update of frame [i + 1] when the loop starts at
    reading [calls] of the trial clock with frame counter [frame]. *)
Definition loop_params (trial_clock : nat -> R) (time_offset : R)
    (calls : nat) (frame : Z) (i : nat) : Params :=
  mkParams (trial_clock (calls + 3 * i + 1)%nat + time_offset)
           (frame + Z.of_nat i + 1)%Z false.

(** What a row holds besides the position. *)
Definition row_stamp {M : Type} (r : Row M) : M * R * R :=
  (static r, experiment_time r, trial_time r).







(** The jumping circle of a counterclockwise trial at 30 degrees per second
    under these settings: at (400, 0), on a circle of radius 400, jumping
    every third frame. *)
Definition circling_jumper : JumpingCircle :=
  mkJumpingCircle
    (mkMovingCircle (mkCircle (400, 0) 0) 30
                    (CircularTrajectory double_monitor 400 "counterclockwise"
                                        0))
    (Some 3%Z).








(** * Properties *)

(** ** Angles and the two conversions *)

Lemma atan2_zero : atan2 0 0 = 0.
Proof. unfold atan2; repeat case_if; lra. Qed.

Lemma atan2_right_half_plane (y x : R) : 0 < x -> atan2 y x = atan (y / x).
Proof. intros Hx; unfold atan2; case_if; [reflexivity | contradiction]. Qed.

Lemma atan2_up (y : R) : 0 < y -> atan2 y 0 = PI / 2.
Proof. intros Hy; unfold atan2; repeat case_if; lra. Qed.

Lemma atan_pos (x : R) : 0 < x -> 0 < atan x.
Proof. intros Hx; rewrite <- atan_0; now apply atan_increasing. Qed.

Lemma degrees_pos (x : R) : 0 < x -> 0 < degrees x.
Proof.
  intros Hx; unfold degrees.
  apply Rmult_lt_0_compat; [assumption |].
  apply Rdiv_lt_0_compat; [lra | apply PI_RGT_0].
Qed.

Lemma degrees_radians (x : R) : degrees (radians x) = x.
Proof. unfold degrees, radians; field; apply PI_neq0. Qed.

Lemma half_screen_angle_pos (m : Monitor) :
  positive_geometry m -> 0 < half_screen_angle m.
Proof.
  intros (Hd & Hh & _); unfold half_screen_angle.
  apply degrees_pos.
  rewrite atan2_right_half_plane by assumption.
  apply atan_pos, Rdiv_lt_0_compat; lra.
Qed.

Lemma div_ok (a b : R) : b <> 0 -> div a b = OK (a / b).
Proof. intros Hb; unfold div; case_if; [contradiction | reflexivity]. Qed.

Lemma deg_to_px_ok (deg : R) (m : Monitor) :
  half_screen_angle m <> 0 ->
  deg_to_px deg m = OK (deg / half_screen_angle m * (0.5 * resolution_1 m)).
Proof.
  intros Ha; unfold deg_to_px; fold (half_screen_angle m).
  rewrite div_ok by assumption; reflexivity.
Qed.

Lemma px_to_deg_ok (px : R) (m : Monitor) :
  resolution_1 m <> 0 ->
  px_to_deg px m = OK (half_screen_angle m / (0.5 * resolution_1 m) * px).
Proof.
  intros Hr; unfold px_to_deg; fold (half_screen_angle m).
  rewrite div_ok by lra; reflexivity.
Qed.

(** C8: on a monitor with positive distance, height and vertical resolution,
    converting pixels to degrees and back gives the pixels again, and
    converting degrees to pixels and back gives the degrees again; neither
    conversion raises. *)
Theorem deg_px_round_trip (m : Monitor) (x : R) :
  positive_geometry m ->
  (deg <- px_to_deg x m ;; deg_to_px deg m) = OK x /\
  (px <- deg_to_px x m ;; px_to_deg px m) = OK x.
Proof.
  intros Hm.
  pose proof (half_screen_angle_pos m Hm) as Ha.
  destruct Hm as (_ & _ & Hr).
  split.
  - rewrite px_to_deg_ok by lra; cbn.
    rewrite deg_to_px_ok by lra.
    f_equal; field; lra.
  - rewrite deg_to_px_ok by lra; cbn.
    rewrite px_to_deg_ok by lra.
    f_equal; field; lra.
Qed.

Lemma unit_monitor_positive : positive_geometry unit_monitor.
Proof. unfold positive_geometry; cbn; lra. Qed.

Lemma double_monitor_positive : positive_geometry double_monitor.
Proof. unfold positive_geometry; cbn; lra. Qed.

Lemma half_screen_angle_45 (r : R) : half_screen_angle (mkMonitor 1 2 r) = 45.
Proof.
  unfold half_screen_angle; cbn.
  rewrite atan2_right_half_plane by lra.
  replace (0.5 * 2 / 1) with 1 by lra.
  rewrite atan_1; unfold degrees; field; apply PI_neq0.
Qed.

Lemma deg_to_px_unit (deg : R) : deg_to_px deg unit_monitor = OK deg.
Proof.
  unfold unit_monitor.
  rewrite deg_to_px_ok; rewrite half_screen_angle_45; [| lra].
  cbn; f_equal; lra.
Qed.

Lemma deg_to_px_double (deg : R) : deg_to_px deg double_monitor = OK (2 * deg).
Proof.
  unfold double_monitor.
  rewrite deg_to_px_ok; rewrite half_screen_angle_45; [| lra].
  cbn; f_equal; lra.
Qed.

Lemma deg_px_round_trip_witness :
  positive_geometry unit_monitor /\
  (deg <- px_to_deg 800 unit_monitor ;; deg_to_px deg unit_monitor) = OK 800.
Proof.
  split.
  - exact unit_monitor_positive.
  - exact (proj1 (deg_px_round_trip unit_monitor 800 unit_monitor_positive)).
Defined.

(** ** Required seconds of a trial *)

(** C6: for a trajectory name without "cir", when the target speed converts
    to [speed_px] pixels per second (not zero) and the travel distance to
    [distance_px] pixels, the required seconds are [distance_px / speed_px],
    replaced by [max_seconds] whenever the quotient exceeds it, and the
    stimulus gets the speed in pixels. *)
Theorem required_seconds_linear (settings : Settings) (target_speed : R)
    (target_trajectory : string) (speed_px distance_px : R) :
  contains "cir" target_trajectory = false ->
  deg_to_px target_speed (monitor settings) = OK speed_px ->
  deg_to_px (moving_distance settings) (monitor settings) = OK distance_px ->
  speed_px <> 0 ->
  initialize_stimulus settings target_speed target_trajectory =
    OK (if Rlt_dec (max_seconds settings) (distance_px / speed_px)
        then max_seconds settings else distance_px / speed_px,
        speed_px).
Proof.
  intros Hlin Hs Hd Hnz; unfold initialize_stimulus.
  rewrite Hs; cbn [bind]; rewrite Hd; cbn [bind].
  rewrite div_ok by assumption; cbn [bind].
  rewrite Hlin; reflexivity.
Qed.

(** 800 pixels at 100 pixels per second take 8 seconds under a cap of 10
    seconds, and the capped 5 seconds under a cap of 5 seconds. *)
Lemma required_seconds_800_100 :
  initialize_stimulus (example_settings 10) 100 "hor_right"
    = OK (8, 100) /\
  initialize_stimulus (example_settings 5) 100 "hor_right"
    = OK (5, 100).
Proof.
  split.
  - rewrite (required_seconds_linear (example_settings 10) 100 "hor_right"
               100 800); cbn; try apply deg_to_px_unit; try reflexivity;
      try lra.
    case_if; [exfalso; lra | do 2 f_equal; lra].
  - rewrite (required_seconds_linear (example_settings 5) 100 "hor_right"
               100 800); cbn; try apply deg_to_px_unit; try reflexivity;
      try lra.
    case_if; [reflexivity | exfalso; lra].
Qed.

Lemma required_seconds_linear_witness :
  initialize_stimulus (example_settings 5) 100 "diag_up_left" =
    OK (if Rlt_dec (max_seconds (example_settings 5)) (800 / 100)
        then max_seconds (example_settings 5) else 800 / 100,
        100).
Proof.
  apply (required_seconds_linear (example_settings 5) 100 "diag_up_left"
           100 800).
  - reflexivity.
  - apply deg_to_px_unit.
  - apply deg_to_px_unit.
  - lra.
Defined.

(** C10: for a trajectory name with "cir", on a monitor with positive
    geometry and for a positive angular speed, the required seconds are
    360 / target_speed, whatever the monitor distance, the travel distance
    and the cap are; the stimulus gets the angular speed. *)
Theorem required_seconds_circular (settings : Settings) (target_speed : R)
    (target_trajectory : string) :
  contains "cir" target_trajectory = true ->
  positive_geometry (monitor settings) ->
  0 < target_speed ->
  initialize_stimulus settings target_speed target_trajectory =
    OK (360 / target_speed, target_speed).
Proof.
  intros Hcir Hm Hs; unfold initialize_stimulus.
  pose proof (half_screen_angle_pos _ Hm) as Ha.
  destruct Hm as (Hd & _ & Hr).
  rewrite !deg_to_px_ok by lra; cbn [bind].
  rewrite div_ok; cbn [bind].
  2:{ apply Rmult_integral_contrapositive_currified; [| lra].
      unfold Rdiv; apply Rmult_integral_contrapositive_currified; [lra |].
      apply Rinv_neq_0_compat; lra. }
  rewrite Hcir.
  rewrite div_ok by lra; cbn [bind].
  rewrite div_ok by lra; cbn [bind].
  assert (Hrot : degrees (2 * PI * distance (monitor settings))
                 / distance (monitor settings) = 360).
  { unfold degrees; field; split; [apply PI_neq0 | lra]. }
  rewrite Hrot, div_ok by lra; cbn [bind].
  f_equal; f_equal; field; lra.
Qed.

Lemma required_seconds_circular_witness :
  initialize_stimulus (example_settings 5) 30 "cir_clock" =
    OK (360 / 30, 30).
Proof.
  apply (required_seconds_circular (example_settings 5) 30 "cir_clock").
  - reflexivity.
  - exact unit_monitor_positive.
  - lra.
Defined.

(** ** The two branches of the circular trajectory *)

(** C7: the clockwise branch takes cos and sin of the converted angle
    [deg_to_px (time_step * speed)], the counterclockwise branch converts
    the cos and sin positions of the plain angle; and on the monitor where
    one degree is two pixels, with radius 1, at time 1 and 45 degrees per
    second, the clockwise position (0, 1) is not the mirror image of the
    counterclockwise position. *)
Theorem circular_branches_not_mirrored :
  (forall monitor radius start current_position time_step speed,
      update_position (CircularTrajectory monitor radius "clockwise" start)
                      current_position time_step speed =
        (a <- deg_to_px (time_step * speed) monitor ;;
         OK (- radius * cos (radians (a - start)),
             radius * sin (radians (a - start)))) /\
      update_position
          (CircularTrajectory monitor radius "counterclockwise" start)
          current_position time_step speed =
        (x <- deg_to_px (radius * cos (radians (time_step * speed - start)))
                        monitor ;;
         y <- deg_to_px (radius * sin (radians (time_step * speed - start)))
                        monitor ;;
         OK (x, y))) /\
  exists radius monitor time_step speed p_clock p_counter,
    positive_geometry monitor /\
    update_position (CircularTrajectory monitor radius "clockwise" 0)
                    (0, 0) time_step speed = OK p_clock /\
    update_position (CircularTrajectory monitor radius "counterclockwise" 0)
                    (0, 0) time_step speed = OK p_counter /\
    p_clock <> (- fst p_counter, snd p_counter).
Proof.
  split.
  - intros m r st cur t s; split.
    + cbn. unfold deg_to_px, div.
      case_if; cbn; [reflexivity |].
      replace (t * s / degrees (atan2 (0.5 * height m) (distance m))
               * (0.5 * resolution_1 m))
        with (t * (s / degrees (atan2 (0.5 * height m) (distance m))
                   * (0.5 * resolution_1 m))) by (field; assumption).
      reflexivity.
    + reflexivity.
  - exists 1, double_monitor, 1, 45.
    exists (- 1 * cos (PI / 2), 1 * sin (PI / 2)).
    exists (2 * (1 * cos (PI / 4)), 2 * (1 * sin (PI / 4))).
    split; [exact double_monitor_positive |].
    assert (H90 : radians (1 * (2 * 45) - 0) = PI / 2)
      by (unfold radians; field).
    assert (H45 : radians (1 * 45 - 0) = PI / 4)
      by (unfold radians; field).
    repeat split.
    + cbn. rewrite !deg_to_px_double; cbn. rewrite H90; reflexivity.
    + cbn. rewrite H45, !deg_to_px_double; reflexivity.
    + cbn [fst snd]. rewrite cos_PI2, sin_PI2, cos_PI4, sin_PI4.
      intros Heq; injection Heq as Hx _.
      assert (Hpos : 0 < 1 / sqrt 2).
      { apply Rdiv_lt_0_compat; [lra | apply sqrt_lt_R0; lra]. }
      lra.
Qed.

(** ** Construction of trajectories *)

Lemma in_strings_inv (v : value) (l : list string) :
  in_strings v l = true -> exists s, v = VStr s /\ In s l.
Proof.
  destruct v; cbn; try discriminate.
  intros H; apply existsb_exists in H as (x & Hin & Heq).
  apply String.eqb_eq in Heq; subst x; eauto.
Qed.

Lemma numeric_inv (v : value) :
  numeric v = true -> exists x, to_real v = OK x.
Proof. destruct v; cbn; try discriminate; eauto. Qed.

Lemma not_numeric_guard (v : value) :
  numeric v = false ->
  negb (isinstance_float v) && negb (isinstance_int v) = true.
Proof.
  unfold numeric; intros H; apply orb_false_elim in H as [-> ->]; reflexivity.
Qed.

Lemma numeric_guard (v : value) :
  negb (isinstance_float v) && negb (isinstance_int v) = negb (numeric v).
Proof. unfold numeric; now rewrite negb_orb. Qed.

Ltac linear_init_raises H :=
  rewrite numeric_guard;
  destruct H as [H | H]; rewrite ?H; cbn; try reflexivity;
  match goal with
  | |- context [numeric ?v] => destruct (numeric v); reflexivity
  end.

Ltac linear_init_ok H :=
  let Hnum := fresh "Hnum" in
  let Hdir := fresh "Hdir" in
  let Hx := fresh "Hx" in
  let Hin := fresh "Hin" in
  let x := fresh "x" in
  let s := fresh "s" in
  rewrite numeric_guard in H;
  match type of H with
  | context [numeric ?v] =>
      destruct (numeric v) eqn:Hnum; cbn in H; [| discriminate]
  end;
  match type of H with
  | context [in_strings ?v ?l] =>
      destruct (in_strings v l) eqn:Hdir; cbn in H; [| discriminate]
  end;
  apply numeric_inv in Hnum as (x & Hx);
  apply in_strings_inv in Hdir as (s & -> & Hin);
  rewrite Hx in H; cbn in H; injection H as <-;
  exists x, s; auto.

(** C9: every trajectory constructor raises ValueError when the distance
    (radius) is neither a float nor an int, when the direction is not one of
    the strings of its kind and, for the circular one, when the start is not
    numeric or the monitor is not a dict with the keys "distance",
    "resolution" and "height"; and a constructor that returns a trajectory
    has set every attribute from checked arguments. *)
Theorem trajectory_construction_fails_fast :
  (forall distance_px direction,
      numeric distance_px = false \/
      in_strings direction ["left"; "right"] = false ->
      HorizontalTrajectory_init distance_px direction = Raise ValueError) /\
  (forall distance_px direction,
      numeric distance_px = false \/
      in_strings direction ["up"; "down"] = false ->
      VerticalTrajectory_init distance_px direction = Raise ValueError) /\
  (forall distance_px direction,
      numeric distance_px = false \/
      in_strings direction
        ["up_right"; "up_left"; "down_right"; "down_left"] = false ->
      DiagonalTrajectory_init distance_px direction = Raise ValueError) /\
  (forall radius direction start monitor,
      numeric radius = false \/
      in_strings direction ["clockwise"; "counterclockwise"] = false \/
      numeric start = false \/
      monitor_record monitor = false ->
      CircularTrajectory_init radius direction start monitor
        = Raise ValueError) /\
  (forall distance_px direction t,
      HorizontalTrajectory_init distance_px direction = OK t ->
      exists d s, to_real distance_px = OK d /\ direction = VStr s /\
                  In s ["left"; "right"] /\
                  t = HorizontalTrajectory (d / 2) s) /\
  (forall distance_px direction t,
      VerticalTrajectory_init distance_px direction = OK t ->
      exists d s, to_real distance_px = OK d /\ direction = VStr s /\
                  In s ["up"; "down"] /\
                  t = VerticalTrajectory (d / 2) s) /\
  (forall distance_px direction t,
      DiagonalTrajectory_init distance_px direction = OK t ->
      exists d s, to_real distance_px = OK d /\ direction = VStr s /\
                  In s ["up_right"; "up_left"; "down_right"; "down_left"] /\
                  t = DiagonalTrajectory (d / 2) s) /\
  (forall radius direction start monitor t,
      CircularTrajectory_init radius direction start monitor = OK t ->
      exists r s st d m,
        to_real radius = OK r /\ direction = VStr s /\
        In s ["clockwise"; "counterclockwise"] /\ to_real start = OK st /\
        monitor = VDict d /\ monitor_record monitor = true /\
        monitor_of_dict d = OK m /\
        t = CircularTrajectory m r s st).
Proof.
  repeat split.
  - intros d dir H; unfold HorizontalTrajectory_init; linear_init_raises H.
  - intros d dir H; unfold VerticalTrajectory_init; linear_init_raises H.
  - intros d dir H; unfold DiagonalTrajectory_init; linear_init_raises H.
  - intros r dir st m H; unfold CircularTrajectory_init.
    rewrite !numeric_guard.
    destruct (numeric r); [| reflexivity]; cbn [negb].
    destruct (in_strings dir _); [| reflexivity]; cbn [negb].
    destruct (numeric st); [| reflexivity]; cbn [negb].
    destruct H as [H | [H | [H | H]]]; try discriminate.
    destruct m; try reflexivity; cbn in H.
    destruct (has_key "distance" d); [| reflexivity].
    destruct (has_key "resolution" d); [| reflexivity].
    cbn in H; rewrite H; reflexivity.
  - intros d dir t H; unfold HorizontalTrajectory_init in H; linear_init_ok H.
  - intros d dir t H; unfold VerticalTrajectory_init in H; linear_init_ok H.
  - intros d dir t H; unfold DiagonalTrajectory_init in H; linear_init_ok H.
  - intros r dir st m t H; unfold CircularTrajectory_init in H.
    rewrite !numeric_guard in H.
    destruct (numeric r) eqn:Hr; [| discriminate]; cbn [negb] in H.
    destruct (in_strings dir _) eqn:Hdir; [| discriminate]; cbn [negb] in H.
    destruct (numeric st) eqn:Hst; [| discriminate]; cbn [negb] in H.
    destruct m; try discriminate.
    destruct (has_key "distance" d) eqn:Hk1; [| discriminate].
    destruct (has_key "resolution" d) eqn:Hk2; [| discriminate].
    destruct (has_key "height" d) eqn:Hk3; [| discriminate].
    cbn [negb] in H.
    apply numeric_inv in Hr as (x & Hx), Hst as (y & Hy).
    apply in_strings_inv in Hdir as (s & -> & Hin).
    rewrite Hx in H; cbn [bind] in H.
    destruct (monitor_of_dict d) as [mon |] eqn:Hmon; [| discriminate].
    cbn [bind] in H.
    destruct (px_to_deg x mon); [| discriminate].
    cbn in H; rewrite Hy in H; cbn in H; injection H as <-.
    exists x, s, y, d, mon; repeat split; auto.
    cbn; now rewrite Hk1, Hk2, Hk3.
Qed.

Lemma trajectory_construction_fails_fast_witness :
  HorizontalTrajectory_init (VStr "wide") (VStr "left") = Raise ValueError /\
  CircularTrajectory_init (VInt 100) (VStr "clockwise") (VInt 0) VNone
    = Raise ValueError.
Proof.
  destruct trajectory_construction_fails_fast as (Hh & _ & _ & Hc & _).
  split.
  - apply Hh; left; reflexivity.
  - apply Hc; right; right; right; reflexivity.
Defined.

(** ** Orientation of a moving circle *)

Lemma bearing_zero_vector (a b : R) : bearing (b - b, a - a) = 0.
Proof.
  unfold bearing; cbn [fst snd].
  replace (a - a) with 0 by lra; replace (b - b) with 0 by lra.
  rewrite atan2_zero; unfold degrees, radians; field; apply PI_neq0.
Qed.

Lemma bearing_up (y : R) : 0 < y -> bearing (0, y) = -90.
Proof.
  intros Hy; unfold bearing; cbn [fst snd].
  rewrite atan2_up by assumption.
  unfold degrees, radians; field; apply PI_neq0.
Qed.

Lemma update_orientation_bearing (t : Trajectory) (cur : R * R)
    (time_step speed : R) (next : R * R) :
  update_position t cur time_step speed = OK next ->
  update_orientation t cur time_step speed =
    OK (bearing (fst next - fst cur, snd next - snd cur)).
Proof. intros H; unfold update_orientation; rewrite H; reflexivity. Qed.

(** A linear trajectory never raises, and evaluating it again from the
    position it returned gives that position again. *)
Lemma update_position_linear (t : Trajectory) (cur : R * R)
    (time_step speed : R) :
  non_circular t = true ->
  exists p, update_position t cur time_step speed = OK p /\
            update_position t p time_step speed = OK p.
Proof.
  intros Hlin; destruct t; try discriminate; cbn;
    repeat case_if; eexists; split; reflexivity.
Qed.

(** On every linear trajectory [MovingCircle.update] leaves the orientation
    at 0: the movement vector is taken from the position that was just
    written to the position the trajectory gives at the same instant. *)
Lemma MovingCircle_update_orientation_zero (self : MovingCircle)
    (params : Params) :
  non_circular (trajectory self) = true ->
  exists p,
    update_position (trajectory self) (pos (target self))
                    (current_time params) (speed self) = OK p /\
    MovingCircle_update self params =
      OK (mkMovingCircle (mkCircle p 0) (speed self) (trajectory self), p).
Proof.
  intros Hlin.
  destruct (update_position_linear (trajectory self) (pos (target self))
              (current_time params) (speed self) Hlin) as (p & Hp & Hpp).
  exists p; split; [assumption |].
  unfold MovingCircle_update; rewrite Hp; cbn [bind].
  rewrite (update_orientation_bearing _ _ _ _ p Hpp); cbn [bind].
  rewrite bearing_zero_vector; reflexivity.
Qed.

(** C1 (the code departs from it): the circle that rises at 10 pixels per
    second is, after [MovingCircle.update] at time 1, at (0, -40) with
    orientation 0, while the movement vector position(1 + eps) - position(1)
    has bearing -90 for every eps > 0; so the orientation written by
    [update] is not the bearing of the instantaneous direction of motion. *)
Theorem moving_circle_orientation_ignores_motion :
  MovingCircle_update rising_circle (mkParams 1 1 false) =
    OK (mkMovingCircle (mkCircle (0, 10 * 1 - 50) 0) 10
                       (VerticalTrajectory 50 "up"), (0, 10 * 1 - 50)) /\
  forall eps, 0 < eps ->
    exists p q,
      update_position (VerticalTrajectory 50 "up") (0, 10 * 1 - 50) 1 10
        = OK p /\
      update_position (VerticalTrajectory 50 "up") (0, 10 * 1 - 50)
                      (1 + eps) 10 = OK q /\
      bearing (fst q - fst p, snd q - snd p) = -90 /\
      bearing (fst q - fst p, snd q - snd p) <> 0.
Proof.
  split.
  - destruct (MovingCircle_update_orientation_zero rising_circle
                (mkParams 1 1 false) eq_refl) as (p & Hp & Hup).
    cbn in Hp; injection Hp as <-; exact Hup.
  - intros eps Heps; cbn.
    do 2 eexists; repeat split; cbn [fst snd];
      replace (0 - 0) with 0 by lra;
      replace (10 * (1 + eps) - 50 - (10 * 1 - 50)) with (10 * eps) by lra;
      rewrite bearing_up by lra; lra.
Qed.

Lemma moving_circle_orientation_ignores_motion_witness :
  exists p q,
    update_position (VerticalTrajectory 50 "up") (0, 10 * 1 - 50) 1 10
      = OK p /\
    update_position (VerticalTrajectory 50 "up") (0, 10 * 1 - 50) (1 + 1) 10
      = OK q /\
    bearing (fst q - fst p, snd q - snd p) = -90 /\
    bearing (fst q - fst p, snd q - snd p) <> 0.
Proof.
  apply (proj2 moving_circle_orientation_ignores_motion 1); lra.
Defined.

(** ** The updates of the circles *)

Lemma MovingCircle_update_inv (self c : MovingCircle) (params : Params)
    (q : R * R) :
  MovingCircle_update self params = OK (c, q) ->
  update_position (trajectory self) (pos (target self)) (current_time params)
                  (speed self) = OK q /\
  pos (target c) = q /\ speed c = speed self /\
  trajectory c = trajectory self.
Proof.
  unfold MovingCircle_update; intros H.
  destruct (update_position _ _ _ _) as [p |]; [| discriminate].
  cbn [bind] in H.
  destruct (update_orientation _ _ _ _) as [o |]; [| discriminate].
  cbn in H; injection H as <- <-; auto.
Qed.

Lemma pymod_ok (a k : Z) : k <> 0%Z -> pymod a k = OK (a mod k)%Z.
Proof.
  intros Hk; unfold pymod.
  destruct (Z.eqb_spec k 0); [contradiction | reflexivity].
Qed.


(** ** The swarm and the back-and-forth array *)

Lemma setitem_visible (l l' : list Z) (j : nat) :
  setitem l j 1%Z = OK l' ->
  List.length l' = List.length l /\ (visible l <= visible l' <= visible l + 1)%nat.
Proof.
  revert l' j; induction l as [| x l IH]; intros l' j H; [discriminate |].
  destruct j as [| j]; cbn in H.
  - injection H as <-; unfold visible; cbn.
    destruct (Z.eq_dec x 1); split; auto; lia.
  - destruct (setitem l j 1%Z) as [l'' |] eqn:Hset; [| discriminate].
    cbn in H; injection H as <-.
    destruct (IH _ _ Hset) as (Hlen & Hvis).
    unfold visible in *; cbn; rewrite Hlen.
    destruct (Z.eq_dec x 1); split; auto; lia.
Qed.

Lemma setitem_ok (l : list Z) (j : nat) (v : Z) :
  (j < List.length l)%nat -> exists l', setitem l j v = OK l'.
Proof.
  revert j; induction l as [| x l IH]; intros j Hj; cbn in Hj; [lia |].
  destruct j as [| j]; cbn; [eauto |].
  destruct (IH j) as (l' & ->); [lia |]; cbn; eauto.
Qed.

Lemma turn_on_visible (random : nat -> nat) (count : nat) (n : Z)
    (ops ops' : list Z) (draws draws' : nat) :
  turn_on random count n ops draws = OK (ops', draws') ->
  List.length ops' = List.length ops /\ draws' = (draws + count)%nat /\
  (visible ops <= visible ops' <= visible ops + count)%nat.
Proof.
  revert ops draws; induction count as [| count IH]; intros ops draws H.
  - cbn in H; injection H as <- <-; repeat split; lia.
  - cbn in H; unfold choice in H.
    destruct (n <=? 0)%Z; [discriminate |]; cbn [bind] in H.
    destruct (setitem ops _ 1%Z) as [ops1 |] eqn:Hset; [| discriminate].
    cbn [bind] in H.
    apply setitem_visible in Hset as (Hlen & Hvis).
    apply IH in H as (Hlen' & Hd & Hvis').
    repeat split; lia.
Qed.

Lemma turn_on_ok (random : nat -> nat) (count : nat) (n : Z)
    (ops : list Z) (draws : nat) :
  (0 < n)%Z -> List.length ops = Z.to_nat n ->
  exists ops' draws', turn_on random count n ops draws = OK (ops', draws').
Proof.
  intros Hn; revert ops draws; induction count as [| count IH];
    intros ops draws Hlen; cbn; [eauto |].
  unfold choice; destruct (Z.leb_spec n 0); [lia |]; cbn [bind].
  destruct (setitem_ok ops (random draws mod Z.to_nat n)%nat 1%Z)
    as (ops1 & Hset).
  { rewrite Hlen; apply Nat.mod_upper_bound; lia. }
  rewrite Hset; cbn [bind].
  apply IH; apply setitem_visible in Hset as (-> & _); assumption.
Qed.

Lemma visible_zeros (m : nat) : visible (repeat 0%Z m) = 0%nat.
Proof. induction m; cbn; auto. Qed.

(** A resampling of a swarm with at least one slot never raises, makes one
    draw per active element and leaves at most [n_active] elements visible
    (not necessarily [n_active]: the draws are independent). *)
Lemma resample_visible_le (random : nat -> nat) (self : SwarmStimulus)
    (draws : nat) :
  (0 < n self)%Z ->
  exists self',
    resample random self draws
      = OK (self', (draws + Z.to_nat (n_active self))%nat) /\
    List.length (opacities self') = Z.to_nat (n self) /\
    (visible (opacities self') <= Z.to_nat (n_active self))%nat.
Proof.
  intros Hn; unfold resample.
  destruct (turn_on_ok random (Z.to_nat (n_active self)) (n self)
              (repeat 0%Z (Z.to_nat (n self))) draws Hn)
    as (ops & draws' & Hon); [apply repeat_length |].
  rewrite Hon; cbn [bind].
  apply turn_on_visible in Hon as (Hlen & -> & Hvis).
  rewrite repeat_length in Hlen; rewrite visible_zeros in Hvis.
  eexists; split; [reflexivity |]; cbn [opacities]; split;
    [assumption | lia].
Qed.

(** C5 (the code departs from it): a swarm of 3 slots with 2 active
    elements whose two draws both give index 0 has one visible element after
    construction, and again after the resampling of frame 3. *)
Theorem swarm_draws_may_collide :
  SwarmStimulus_init constant_draws elements_built 3 2 (Some 3%Z) 0
    = OK (mkSwarmStimulus 3 2 (Some 3%Z) [1%Z; 0%Z; 0%Z], 2%nat) /\
  SwarmStimulus_update constant_draws
      (mkSwarmStimulus 3 2 (Some 3%Z) [1%Z; 0%Z; 0%Z])
      (mkParams 0.5 3 false) 2
    = OK (mkSwarmStimulus 3 2 (Some 3%Z) [1%Z; 0%Z; 0%Z], 4%nat) /\
  visible [1%Z; 0%Z; 0%Z] = 1%nat /\
  visible [1%Z; 0%Z; 0%Z] <> Z.to_nat 2.
Proof. repeat split; cbn; lia. Qed.

(** C3 (as stated, refuted): at frame 1 the swarm that resamples every third
    frame makes no draw, and on a final update at frame 2 the array that
    toggles every third frame keeps its offsets, although the gate of the
    jumping circle is open in both calls. *)
Lemma swarm_and_array_gates_differ :
  ~ swarm_follows_jump_gate /\ ~ array_follows_jump_gate.
Proof.
  split.
  - intros Hclaim.
    specialize (Hclaim constant_draws small_swarm (mkParams 0.1 1 false)
                  0%nat 3%Z eq_refl eq_refl).
    cbn in Hclaim; discriminate.
  - intros Hclaim.
    specialize (Hclaim small_array (mkParams 1 2 true) 3%Z
                  (set_fieldPos small_array (10 * 1 - 50, 0))
                  (10 * 1 - 50 - 0, 0 - 0) eq_refl eq_refl eq_refl).
    cbn in Hclaim; discriminate.
Qed.

(** C3 (amended): with update frequency [k] (not zero), the swarm resamples
    exactly when [current_frame % k == 0] and is unchanged, without a draw,
    in every other call, final or not; the array recomputes its field
    position in every call, and recomputes its offsets and toggles exactly
    when [current_frame % k == 0] or [current_frame == 1], keeping offsets
    and toggle in every other call, final or not. *)
Theorem swarm_and_array_gates :
  (forall random self params draws k,
      swarm_update_frequency self = Some k -> k <> 0%Z ->
      ((current_frame params mod k = 0)%Z ->
       SwarmStimulus_update random self params draws
         = resample random self draws) /\
      ((current_frame params mod k <> 0)%Z ->
       SwarmStimulus_update random self params draws = OK (self, draws))) /\
  (forall self params k self' p,
      array_update_frequency self = Some k -> k <> 0%Z ->
      BackAndForthArray_update self params = OK (self', p) ->
      exists q,
        update_position (array_trajectory self)
                        (fieldPos (array_target self)) (current_time params)
                        (array_speed self) = OK q /\
        fieldPos (array_target self') = q /\
        (((current_frame params mod k = 0)%Z \/ current_frame params = 1%Z ->
          update_xys (set_fieldPos self q) = OK self') /\
         (~ ((current_frame params mod k = 0)%Z \/
             current_frame params = 1%Z) ->
          self' = set_fieldPos self q))).
Proof.
  split.
  - intros random self params draws k Hk Hk0.
    unfold SwarmStimulus_update; rewrite Hk, pymod_ok by assumption.
    cbn [bind]; split; intros Hm.
    + rewrite Hm; reflexivity.
    + destruct (Z.eqb_spec (current_frame params mod k) 0);
        [contradiction | reflexivity].
  - intros self params k self' p Hk Hk0 H.
    unfold BackAndForthArray_update in H.
    destruct (update_position _ _ _ _) as [q |]; [| discriminate].
    cbn [bind] in H; exists q; split; [reflexivity |].
    cbn [set_fieldPos array_update_frequency] in H.
    rewrite Hk, pymod_ok in H by assumption; cbn [bind] in H.
    destruct ((current_frame params mod k =? 0)%Z
              || (current_frame params =? 1)%Z) eqn:Hgate.
    + destruct (update_xys _) as [self2 |] eqn:Hxys; [| discriminate].
      cbn [bind] in H.
      destruct (xys (array_target self2)); [discriminate |].
      injection H as <- <-.
      repeat split; auto.
      * unfold update_xys in Hxys.
        destruct (back_and_forth _) as [[b f] |]; [| discriminate].
        cbn [bind] in Hxys.
        destruct (back _); injection Hxys as <-; reflexivity.
      * intros Hn; exfalso; apply Hn.
        apply orb_true_iff in Hgate as [Hg | Hg];
          [left; now apply Z.eqb_eq | right; now apply Z.eqb_eq].
    + cbn [bind] in H.
      destruct (xys _); [discriminate |].
      injection H as <- <-.
      apply orb_false_iff in Hgate as [Hg1 Hg2].
      apply Z.eqb_neq in Hg1, Hg2.
      repeat split; auto.
      intros [Hm | H1]; contradiction.
Qed.

Lemma swarm_and_array_gates_witness :
  SwarmStimulus_update constant_draws small_swarm (mkParams 0.1 1 true) 0
    = OK (small_swarm, 0%nat).
Proof.
  apply (proj1 swarm_and_array_gates constant_draws small_swarm
           (mkParams 0.1 1 true) 0%nat 3%Z eq_refl); [lia |].
  cbn; lia.
Defined.

(** ** The frame loop *)

Section FrameLoop.

Variable S : Type.
Variable update : S -> Params -> result (S * (R * R)).
Variable M : Type.
Variable trial_clock : nat -> R.
Variable experiment_clock : nat -> R.
Variable quit_pressed : nat -> bool.

Let loop := frame_loop S update M trial_clock experiment_clock quit_pressed.

Lemma updates_of_app (es es' : list (Event S)) :
  updates_of (es ++ es') = (updates_of es ++ updates_of es')%list.
Proof.
  induction es as [| e es IH]; [reflexivity |].
  destruct e; cbn; rewrite ?IH; reflexivity.
Qed.

Lemma updates_of_extra_draws (l : list nat) :
  updates_of (map (@EExtraDraw S) l) = [].
Proof. induction l; cbn; auto. Qed.

(** More fuel does not change a result. *)
Lemma frame_loop_more_fuel (fuel : nat) :
  forall extra (self : SPTrialSection S M) calls frame rows r,
    loop fuel extra self calls frame rows = Some r ->
    loop (Datatypes.S fuel) extra self calls frame rows = Some r.
Proof.
  induction fuel as [| fuel IH]; intros extra self calls frame rows r H;
    [discriminate |].
  unfold loop in *; cbn [frame_loop] in H |- *.
  destruct (Rlt_dec _ _); [| assumption].
  destruct (update _ _) as [[s tp] |]; [| assumption].
  destruct (quit_pressed _); [assumption |].
  apply IH in H; exact H.
Qed.

(** The loop ends as soon as a reading of the clock at its head is not
    below the required seconds. *)
Lemma frame_loop_ends (j : nat) :
  forall extra (self : SPTrialSection S M) calls frame rows,
    ~ trial_clock (calls + 3 * j) < req_sec self ->
    loop (Datatypes.S j) extra self calls frame rows <> None.
Proof.
  induction j as [| j IH]; intros extra self calls frame rows Hj;
    unfold loop in *; cbn [frame_loop].
  - replace (calls + 3 * 0)%nat with calls in Hj by lia.
    destruct (Rlt_dec _ _); [contradiction | discriminate].
  - destruct (Rlt_dec _ _); [| discriminate].
    destruct (update _ _) as [[s tp] |]; [| discriminate].
    destruct (quit_pressed _); [discriminate |].
    apply IH; cbn [req_sec emit].
    replace (calls + 3 + 3 * j)%nat with (calls + 3 * Datatypes.S j)%nat
      by lia.
    exact Hj.
Qed.

Lemma frame_loop_inv (fuel : nat) :
  forall extra (self self' : SPTrialSection S M) calls calls' frame frame'
         rows rows',
    loop fuel extra self calls frame rows
      = Some (OK (self', calls', frame', rows')) ->
    exists frames positions new_rows,
      log self' = (log self ++ frames)%list /\
      Forall (fun p => final_update p = false) (updates_of frames) /\
      run_updates update (stimulus self) (updates_of frames)
        = OK (stimulus self', positions) /\
      rows' = (rows ++ new_rows)%list /\
      map row_position new_rows = positions /\
      frame' = (frame + Z.of_nat (List.length new_rows))%Z /\
      trial_number self' = trial_number self /\
      time_offset self' = time_offset self.
Proof.
  induction fuel as [| fuel IH];
    intros extra self self' calls calls' frame frame' rows rows' H;
    [discriminate |].
  unfold loop in *; cbn [frame_loop] in H.
  destruct (Rlt_dec _ _).
  - destruct (update _ _) as [[s tp] |] eqn:Hup; [| discriminate].
    destruct (quit_pressed _); [discriminate |].
    apply IH in H
      as (frames & positions & new_rows & Hlog & Hnf & Hrun & Hrows & Hpos
          & Hframe & Htn & Hto).
    cbn [log emit stimulus trial_number time_offset] in *.
    eexists (_ ++ frames)%list, (tp :: positions), (_ :: new_rows).
    repeat split.
    + rewrite Hlog, <- app_assoc; reflexivity.
    + rewrite updates_of_app, <- !app_assoc; cbn [updates_of app].
      rewrite updates_of_app, updates_of_extra_draws; cbn [updates_of app].
      constructor; [reflexivity | assumption].
    + rewrite updates_of_app, <- !app_assoc; cbn [updates_of app].
      rewrite updates_of_app, updates_of_extra_draws; cbn [updates_of app].
      cbn [run_updates]; rewrite Hup; cbn [bind].
      rewrite Hrun; reflexivity.
    + rewrite Hrows, <- app_assoc; reflexivity.
    + cbn [map]; rewrite Hpos; unfold row_position at 1; cbn.
      now destruct tp.
    + cbn [List.length]; lia.
    + assumption.
    + assumption.
  - injection H as <- <- <- <-.
    exists [], [], []; repeat split; cbn; rewrite ?app_nil_r; auto.
    lia.
Qed.

End FrameLoop.

Lemma run_updates_length (S : Type)
    (update : S -> Params -> result (S * (R * R))) (ps : list Params) :
  forall s s' qs,
    run_updates update s ps = OK (s', qs) ->
    List.length qs = List.length ps.
Proof.
  induction ps as [| p ps IH]; intros s s' qs H; cbn in H.
  - injection H as _ <-; reflexivity.
  - destruct (update s p) as [[s1 q] |]; [| discriminate].
    cbn [bind] in H.
    destruct (run_updates update s1 ps) as [[s2 qs'] |] eqn:Hrec;
      [| discriminate].
    injection H as _ <-; cbn; f_equal; eapply IH; eassumption.
Qed.

(** With enough fuel the trial ends (by returning its rows or by raising) as
    soon as one reading of the trial clock at the head of the loop is not
    below the required seconds. *)
Lemma move_target_ends (S M : Type)
    (update : S -> Params -> result (S * (R * R)))
    (trial_clock experiment_clock : nat -> R) (quit_pressed : nat -> bool)
    (extra_draws : nat) (self : SPTrialSection S M) (j : nat) :
  ~ trial_clock (3 * j)%nat < req_sec self ->
  move_target S update M trial_clock experiment_clock quit_pressed
              (Datatypes.S j) extra_draws self <> None.
Proof.
  intros Hj; unfold move_target.
  pose proof (frame_loop_ends S update M trial_clock experiment_clock
                quit_pressed j extra_draws
                (emit self [EStartTrial (trial_number self)] (stimulus self)
                      (experiment_clock_calls self) (key_polls self))
                0%nat 0%Z [] Hj) as Hloop.
  destruct (frame_loop _ _ _ _ _ _ _ _ _ _ _ _) as [[[[[s c] f] r] | e] |];
    [| discriminate | contradiction].
  destruct (update _ _) as [[s' tp] |]; discriminate.
Qed.

(** C2 (amended): in every trial that returns its rows, the log of the trial
    is the start of the trial, the events of the loop, whose updates are all
    not final, and then exactly one update with [final_update = true],
    followed by the drawing of the stimulus this update leaves, the flip, the
    wait and the end of the trial; the rows hold, one per update of the loop
    and in order, the positions these updates returned, and the position
    returned by the final update is not appended to them. *)
Theorem move_target_final_update (S M : Type)
    (update : S -> Params -> result (S * (R * R)))
    (trial_clock experiment_clock : nat -> R) (quit_pressed : nat -> bool)
    (fuel extra_draws : nat) (self self' : SPTrialSection S M)
    (rows : list (Row M)) :
  move_target S update M trial_clock experiment_clock quit_pressed fuel
              extra_draws self = Some (OK (self', rows)) ->
  exists frames s_loop positions final_params p_final,
    log self' =
      (log self ++ [EStartTrial (trial_number self)] ++ frames
       ++ [EUpdate final_params; EDraw (stimulus self'); EFlip; EWait 0.2;
           EEndTrial (trial_number self)])%list /\
    Forall (fun p => final_update p = false) (updates_of frames) /\
    final_update final_params = true /\
    current_frame final_params = Z.of_nat (List.length rows) /\
    run_updates update (stimulus self) (updates_of frames)
      = OK (s_loop, positions) /\
    update s_loop final_params = OK (stimulus self', p_final) /\
    map row_position rows = positions /\
    List.length rows = List.length (updates_of frames).
Proof.
  unfold move_target; intros H.
  destruct (frame_loop _ _ _ _ _ _ _ _ _ _ _ _)
    as [[[[[self1 calls] frame] rows1] | e] |] eqn:Hloop; try discriminate.
  apply frame_loop_inv in Hloop
    as (frames & positions & new_rows & Hlog & Hnf & Hrun & Hrows & Hpos
        & Hframe & Htn & Hto).
  cbn [log emit stimulus trial_number time_offset app] in *.
  destruct (update (stimulus self1) _) as [[s tp] |] eqn:Hup;
    [| discriminate].
  injection H as <- <-.
  subst rows1 frame.
  exists frames, (stimulus self1), positions.
  eexists; exists tp.
  cbn [log emit stimulus].
  split; [rewrite Hlog, Htn, <- !app_assoc; reflexivity |].
  split; [exact Hnf |].
  split; [reflexivity |].
  split; [cbn [current_frame]; lia |].
  split; [exact Hrun |].
  split; [exact Hup |].
  split; [exact Hpos |].
  pose proof (run_updates_length _ _ _ _ _ _ Hrun) as Hlen.
  rewrite <- Hlen, <- Hpos, length_map; reflexivity.
Qed.

Lemma MovingCircle_update_right (x y o : R) (params : Params) :
  MovingCircle_update
    (mkMovingCircle (mkCircle (x, y) o) 10 (HorizontalTrajectory 50 "right"))
    params
  = OK (mkMovingCircle (mkCircle (10 * current_time params - 50, y) 0) 10
                       (HorizontalTrajectory 50 "right"),
        (10 * current_time params - 50, y)).
Proof.
  destruct (MovingCircle_update_orientation_zero
              (mkMovingCircle (mkCircle (x, y) o) 10
                              (HorizontalTrajectory 50 "right"))
              params eq_refl) as (p & Hp & Hup).
  cbn in Hp; injection Hp as <-; exact Hup.
Qed.

(** The sample trial has one frame: the clock is read at 0 (loop entered),
    0.5 (update) and 0.6 (row), then at 1.2 (loop left) and 1.3 (final
    update). *)
Lemma sample_trial_run :
  move_target MovingCircle MovingCircle_update unit sample_clock
              (fun _ => 0) (fun _ => false) 2 0 sample_trial
    = Some (OK (sample_end, [sample_row])).
Proof.
  unfold move_target, sample_trial.
  cbn [frame_loop emit stimulus req_sec time_offset sample_clock Nat.add].
  destruct (Rlt_dec 0 1) as [_ | Hn]; [| exfalso; lra].
  rewrite MovingCircle_update_right.
  cbn [emit stimulus req_sec time_offset sample_clock Nat.add].
  destruct (Rlt_dec 1.2 1) as [Hn | _]; [exfalso; lra |].
  cbn [emit stimulus req_sec time_offset sample_clock Nat.add].
  rewrite MovingCircle_update_right.
  reflexivity.
Qed.

Lemma sample_trial_updates :
  run_updates MovingCircle_update (stimulus sample_trial)
              (updates_of (log sample_end))
    = OK (sample_circle 1.3,
          [(10 * (0.5 + 0) - 50, 0); (10 * (1.3 + 0) - 50, 0)]).
Proof.
  cbn [updates_of log sample_end run_updates stimulus sample_trial].
  rewrite MovingCircle_update_right; cbn [bind current_time].
  rewrite MovingCircle_update_right; reflexivity.
Qed.

(** C2 (as stated, refuted): the sample trial returns one row, which holds
    the position (-45, 0) of its only frame, while the final update, the
    last that is issued and drawn, returns (-37, 0). *)
Lemma final_position_is_not_logged : ~ final_position_is_logged.
Proof.
  intros Hclaim.
  destruct (Hclaim MovingCircle unit MovingCircle_update sample_clock
              (fun _ => 0) (fun _ => false) 2%nat 0%nat sample_trial
              sample_end [sample_row] (sample_circle 1.3)
              [(10 * (0.5 + 0) - 50, 0); (10 * (1.3 + 0) - 50, 0)]
              eq_refl sample_trial_run sample_trial_updates)
    as (rows0 & row & positions0 & Hrows & Hpos).
  change [sample_row] with ([] ++ [sample_row])%list in Hrows.
  apply app_inj_tail in Hrows as (_ & <-).
  change [(10 * (0.5 + 0) - 50, 0); (10 * (1.3 + 0) - 50, 0)]
    with ([(10 * (0.5 + 0) - 50, 0)] ++ [(10 * (1.3 + 0) - 50, 0)])%list
    in Hpos.
  apply app_inj_tail in Hpos as (_ & Heq).
  unfold row_position in Heq; cbn in Heq; injection Heq as Hx; lra.
Qed.

Lemma move_target_final_update_witness :
  exists frames s_loop positions final_params p_final,
    log sample_end =
      (log sample_trial ++ [EStartTrial (trial_number sample_trial)]
       ++ frames
       ++ [EUpdate final_params; EDraw (stimulus sample_end); EFlip;
           EWait 0.2; EEndTrial (trial_number sample_trial)])%list /\
    Forall (fun p => final_update p = false) (updates_of frames) /\
    final_update final_params = true /\
    current_frame final_params = Z.of_nat (List.length [sample_row]) /\
    run_updates MovingCircle_update (stimulus sample_trial)
                (updates_of frames) = OK (s_loop, positions) /\
    MovingCircle_update s_loop final_params
      = OK (stimulus sample_end, p_final) /\
    map row_position [sample_row] = positions /\
    List.length [sample_row] = List.length (updates_of frames).
Proof.
  exact (move_target_final_update MovingCircle unit MovingCircle_update
           sample_clock (fun _ => 0) (fun _ => false) 2 0 sample_trial
           sample_end [sample_row] sample_trial_run).
Defined.

(** * Further properties of the code *)

(** ** The conversions on any monitor *)

(** A monitor without height at a positive distance spans no angle. *)
Lemma half_screen_angle_flat (m : Monitor) :
  height m = 0 -> 0 < distance m -> half_screen_angle m = 0.
Proof.
  intros Hh Hd; unfold half_screen_angle.
  rewrite atan2_right_half_plane by assumption.
  rewrite Hh; replace (0.5 * 0 / distance m) with 0 by (field; lra).
  rewrite atan_0; unfold degrees; lra.
Qed.

(** On a monitor of height 0 (at a positive distance) [deg_to_px] raises
    ZeroDivisionError while [px_to_deg] returns 0 for every input; on a
    monitor whose vertical resolution is 0, [px_to_deg] raises
    ZeroDivisionError while [deg_to_px] returns 0 for every input. *)
Theorem conversions_on_degenerate_monitors (m : Monitor) (x : R) :
  (height m = 0 -> 0 < distance m ->
   deg_to_px x m = Raise ZeroDivisionError /\
   (resolution_1 m <> 0 -> px_to_deg x m = OK 0)) /\
  (resolution_1 m = 0 ->
   px_to_deg x m = Raise ZeroDivisionError /\
   (half_screen_angle m <> 0 -> deg_to_px x m = OK 0)).
Proof.
  split.
  - intros Hh Hd.
    pose proof (half_screen_angle_flat m Hh Hd) as Ha.
    split.
    + unfold deg_to_px; fold (half_screen_angle m); unfold div.
      case_if; [reflexivity | contradiction].
    + intros Hr; rewrite px_to_deg_ok by assumption.
      rewrite Ha; f_equal; field; lra.
  - intros Hr; split.
    + unfold px_to_deg, div; case_if; [reflexivity | exfalso; lra].
    + intros Ha; rewrite deg_to_px_ok by assumption.
      rewrite Hr; f_equal; lra.
Qed.

Lemma conversions_on_degenerate_monitors_witness :
  deg_to_px 7 (mkMonitor 60 0 1080) = Raise ZeroDivisionError /\
  (resolution_1 (mkMonitor 60 0 1080) <> 0 ->
   px_to_deg 7 (mkMonitor 60 0 1080) = OK 0).
Proof.
  apply (proj1 (conversions_on_degenerate_monitors (mkMonitor 60 0 1080) 7)).
  - reflexivity.
  - cbn; lra.
Defined.

(** The scaling of both conversions, for the proofs below. *)
Lemma conversions_scale_aux (m : Monitor) :
  positive_geometry m ->
  0 < pixels_per_degree m /\
  forall x, deg_to_px x m = OK (pixels_per_degree m * x).
Proof.
  intros Hm.
  pose proof (half_screen_angle_pos m Hm) as Ha.
  destruct Hm as (_ & _ & Hr).
  unfold pixels_per_degree; split.
  - apply Rdiv_lt_0_compat; lra.
  - intros x; rewrite deg_to_px_ok by lra; f_equal; field; lra.
Qed.

(** On a monitor with positive geometry both conversions are total and are
    the multiplication and the division by one positive factor, the pixels
    per degree; so they are linear and strictly increasing. *)
Theorem conversions_scale (m : Monitor) :
  positive_geometry m ->
  0 < pixels_per_degree m /\
  forall x,
    deg_to_px x m = OK (pixels_per_degree m * x) /\
    px_to_deg x m = OK (x / pixels_per_degree m).
Proof.
  intros Hm.
  pose proof (half_screen_angle_pos m Hm) as Ha.
  destruct Hm as (_ & _ & Hr).
  unfold pixels_per_degree; split.
  - apply Rdiv_lt_0_compat; lra.
  - intros x; split.
    + rewrite deg_to_px_ok by lra; f_equal; field; lra.
    + rewrite px_to_deg_ok by lra; f_equal; field; lra.
Qed.

Lemma conversions_scale_witness :
  0 < pixels_per_degree double_monitor /\
  forall x,
    deg_to_px x double_monitor = OK (pixels_per_degree double_monitor * x) /\
    px_to_deg x double_monitor = OK (x / pixels_per_degree double_monitor).
Proof.
  exact (conversions_scale double_monitor double_monitor_positive).
Defined.

(** ** Linear trajectories *)

(** The position of a linear trajectory on each axis: the current one on an
    axis that does not move, and the signed distance covered, less the half
    distance, on an axis that does. *)
Lemma update_position_axes (t : Trajectory) (cur : R * R)
    (time_step speed : R) :
  non_circular t = true ->
  exists p,
    update_position t cur time_step speed = OK p /\
    (fst (direction_vector t) = 0 -> fst p = fst cur) /\
    (snd (direction_vector t) = 0 -> snd p = snd cur) /\
    (fst (direction_vector t) <> 0 ->
     fst p = fst (direction_vector t)
             * (speed * time_step - half_distance t)) /\
    (snd (direction_vector t) <> 0 ->
     snd p = snd (direction_vector t)
             * (speed * time_step - half_distance t)).
Proof.
  intros Hlin; destruct t; try discriminate; cbn;
    repeat case_if; eexists; (split; [reflexivity |]); cbn;
    repeat split; intros; lra.
Qed.

(** Between two instants a linear trajectory moves by speed times the
    elapsed time along its direction vector, and not at all on the other
    axis: a diagonal one moves by the same amount on both axes. *)
Theorem linear_trajectory_displacement (t : Trajectory) (cur : R * R)
    (t1 t2 speed : R) :
  non_circular t = true ->
  exists p1 p2,
    update_position t cur t1 speed = OK p1 /\
    update_position t cur t2 speed = OK p2 /\
    fst p2 - fst p1 = speed * (t2 - t1) * fst (direction_vector t) /\
    snd p2 - snd p1 = speed * (t2 - t1) * snd (direction_vector t).
Proof.
  intros Hlin; destruct t; try discriminate; cbn;
    repeat case_if; do 2 eexists; (split; [reflexivity |]);
    (split; [reflexivity |]); cbn; split; lra.
Qed.

Lemma linear_trajectory_displacement_witness :
  exists p1 p2,
    update_position (DiagonalTrajectory 50 "up_left") (0, 0) 1 10 = OK p1 /\
    update_position (DiagonalTrajectory 50 "up_left") (0, 0) 3 10 = OK p2 /\
    fst p2 - fst p1
      = 10 * (3 - 1) * fst (direction_vector (DiagonalTrajectory 50 "up_left"))
    /\
    snd p2 - snd p1
      = 10 * (3 - 1)
        * snd (direction_vector (DiagonalTrajectory 50 "up_left")).
Proof.
  exact (linear_trajectory_displacement (DiagonalTrajectory 50 "up_left")
           (0, 0) 1 3 10 eq_refl).
Defined.

(** On every axis that moves, a linear trajectory is at minus the half
    distance (along its direction) at time 0, at the centre after
    half_distance / speed seconds and at plus the half distance after twice
    that time. *)
Theorem linear_trajectory_endpoints (t : Trajectory) (cur : R * R)
    (speed : R) :
  non_circular t = true -> speed <> 0 ->
  exists p0 pc pe,
    update_position t cur 0 speed = OK p0 /\
    update_position t cur (half_distance t / speed) speed = OK pc /\
    update_position t cur (2 * half_distance t / speed) speed = OK pe /\
    (fst (direction_vector t) <> 0 ->
     fst p0 = - half_distance t * fst (direction_vector t) /\
     fst pc = 0 /\
     fst pe = half_distance t * fst (direction_vector t)) /\
    (snd (direction_vector t) <> 0 ->
     snd p0 = - half_distance t * snd (direction_vector t) /\
     snd pc = 0 /\
     snd pe = half_distance t * snd (direction_vector t)).
Proof.
  intros Hlin Hs.
  destruct (update_position_axes t cur 0 speed Hlin)
    as (p0 & H0 & _ & _ & Hx0 & Hy0).
  destruct (update_position_axes t cur (half_distance t / speed) speed Hlin)
    as (pc & Hc & _ & _ & Hxc & Hyc).
  destruct (update_position_axes t cur (2 * half_distance t / speed) speed
              Hlin) as (pe & He & _ & _ & Hxe & Hye).
  exists p0, pc, pe; repeat split; try assumption.
  - rewrite Hx0 by assumption; lra.
  - rewrite Hxc by assumption; field; assumption.
  - rewrite Hxe by assumption; field; assumption.
  - rewrite Hy0 by assumption; lra.
  - rewrite Hyc by assumption; field; assumption.
  - rewrite Hye by assumption; field; assumption.
Qed.

Lemma linear_trajectory_endpoints_witness :
  exists p0 pc pe,
    update_position (HorizontalTrajectory 50 "right") (3, 4) 0 10 = OK p0 /\
    update_position (HorizontalTrajectory 50 "right") (3, 4)
      (half_distance (HorizontalTrajectory 50 "right") / 10) 10 = OK pc /\
    update_position (HorizontalTrajectory 50 "right") (3, 4)
      (2 * half_distance (HorizontalTrajectory 50 "right") / 10) 10 = OK pe /\
    (fst (direction_vector (HorizontalTrajectory 50 "right")) <> 0 ->
     fst p0 = - half_distance (HorizontalTrajectory 50 "right")
              * fst (direction_vector (HorizontalTrajectory 50 "right")) /\
     fst pc = 0 /\
     fst pe = half_distance (HorizontalTrajectory 50 "right")
              * fst (direction_vector (HorizontalTrajectory 50 "right"))) /\
    (snd (direction_vector (HorizontalTrajectory 50 "right")) <> 0 ->
     snd p0 = - half_distance (HorizontalTrajectory 50 "right")
              * snd (direction_vector (HorizontalTrajectory 50 "right")) /\
     snd pc = 0 /\
     snd pe = half_distance (HorizontalTrajectory 50 "right")
              * snd (direction_vector (HorizontalTrajectory 50 "right"))).
Proof.
  apply (linear_trajectory_endpoints (HorizontalTrajectory 50 "right") (3, 4)
           10 eq_refl).
  lra.
Defined.

(** ** Orientation *)

Lemma atan2_scale (k y x : R) :
  0 < k -> atan2 (k * y) (k * x) = atan2 y x.
Proof.
  intros Hk; unfold atan2.
  repeat case_if; try (exfalso; nra); try reflexivity;
    replace (k * y / (k * x)) with (y / x) by (field; lra); reflexivity.
Qed.

Lemma bearing_scale (k x y : R) :
  0 < k -> bearing (k * x, k * y) = bearing (x, y).
Proof.
  intros Hk; unfold bearing; cbn [fst snd].
  now rewrite atan2_scale.
Qed.

Lemma bearing_value (x y : R) : bearing (x, y) = - (180 / PI) * atan2 y x.
Proof.
  unfold bearing, degrees, radians; cbn [fst snd]; field; apply PI_neq0.
Qed.

(** The bearings of the eight directions of motion. *)
Lemma bearing_table :
  bearing (1, 0) = 0 /\ bearing (-1, 0) = -180 /\
  bearing (0, 1) = -90 /\ bearing (0, -1) = 90 /\
  bearing (1, 1) = -45 /\ bearing (-1, 1) = -135 /\
  bearing (1, -1) = 45 /\ bearing (-1, -1) = 135.
Proof.
  assert (Hpi := PI_neq0).
  assert (Hm1 : atan (-1) = - (PI / 4)).
  { replace (-1) with (Ropp 1) by lra; rewrite atan_opp, atan_1; lra. }
  repeat split; rewrite bearing_value; unfold atan2; repeat case_if;
    try (exfalso; lra).
  - replace (0 / 1) with 0 by lra; rewrite atan_0; lra.
  - replace (0 / -1) with 0 by lra; rewrite atan_0; field; assumption.
  - field; assumption.
  - field; assumption.
  - replace (1 / 1) with 1 by lra; rewrite atan_1; field; assumption.
  - replace (1 / -1) with (-1) by lra; rewrite Hm1; field; assumption.
  - replace (-1 / 1) with (-1) by lra; rewrite Hm1; field; assumption.
  - replace (-1 / -1) with 1 by (field; lra); rewrite atan_1; field;
      assumption.
Qed.

Ltac pick_equal := first [ left; lra | right; pick_equal ].

(** Called with the position the trajectory had at an earlier instant,
    [update_orientation] returns the bearing of the direction of motion:
    0 to the right, -180 to the left, -90 upwards, 90 downwards, and -45,
    -135, 45 and 135 on the four diagonals. *)
Theorem orientation_from_earlier_position (t : Trajectory) (cur : R * R)
    (t1 t2 speed : R) :
  non_circular t = true -> t1 < t2 -> 0 < speed ->
  exists p1,
    update_position t cur t1 speed = OK p1 /\
    update_orientation t p1 t2 speed = OK (bearing (direction_vector t)) /\
    In (bearing (direction_vector t))
       [0; -180; -90; 90; -45; -135; 45; 135].
Proof.
  intros Hlin Ht Hs.
  assert (Hk : 0 < speed * (t2 - t1)) by (apply Rmult_lt_0_compat; lra).
  destruct (update_position_axes t cur t1 speed Hlin)
    as (p1 & H1 & _ & _ & Hx1 & Hy1).
  destruct (update_position_axes t p1 t2 speed Hlin)
    as (p2 & H2 & Hx0 & Hy0 & Hx2 & Hy2).
  exists p1; split; [assumption |]; split.
  - rewrite (update_orientation_bearing _ _ _ _ p2 H2); f_equal.
    assert (Hd : (fst p2 - fst p1, snd p2 - snd p1)
                 = (speed * (t2 - t1) * fst (direction_vector t),
                    speed * (t2 - t1) * snd (direction_vector t))).
    { f_equal.
      - destruct (Req_dec (fst (direction_vector t)) 0) as [Hz | Hnz].
        + rewrite Hx0, Hz by assumption; lra.
        + rewrite Hx1, Hx2 by assumption; lra.
      - destruct (Req_dec (snd (direction_vector t)) 0) as [Hz | Hnz].
        + rewrite Hy0, Hz by assumption; lra.
        + rewrite Hy1, Hy2 by assumption; lra. }
    rewrite Hd, bearing_scale by assumption.
    now rewrite <- surjective_pairing.
  - destruct bearing_table as (B1 & B2 & B3 & B4 & B5 & B6 & B7 & B8).
    destruct t; try discriminate; cbn [direction_vector];
      repeat case_if; cbn [In];
      rewrite ?B1, ?B2, ?B3, ?B4, ?B5, ?B6, ?B7, ?B8; pick_equal.
Qed.

Lemma orientation_from_earlier_position_witness :
  exists p1,
    update_position (VerticalTrajectory 50 "up") (0, 0) 1 10 = OK p1 /\
    update_orientation (VerticalTrajectory 50 "up") p1 2 10
      = OK (bearing (direction_vector (VerticalTrajectory 50 "up"))) /\
    In (bearing (direction_vector (VerticalTrajectory 50 "up")))
       [0; -180; -90; 90; -45; -135; 45; 135].
Proof.
  apply (orientation_from_earlier_position (VerticalTrajectory 50 "up")
           (0, 0) 1 2 10 eq_refl); lra.
Defined.

(** ** Every trajectory under [MovingCircle.update] *)

(** The position a trajectory returns is returned again when the trajectory
    is evaluated from it at the same instant. *)
Lemma update_position_again (t : Trajectory) (cur p : R * R)
    (time_step speed : R) :
  update_position t cur time_step speed = OK p ->
  update_position t p time_step speed = OK p.
Proof.
  destruct t; cbn; repeat case_if; intros H; try exact H;
    injection H as <-; reflexivity.
Qed.

(** Whenever [MovingCircle.update] returns, on any trajectory, the circle is
    at the position the trajectory gives for the time of the call, which is
    also the position returned, its speed and trajectory are kept, and its
    orientation is 0. *)
Theorem MovingCircle_update_result (self self' : MovingCircle)
    (params : Params) (p : R * R) :
  MovingCircle_update self params = OK (self', p) ->
  update_position (trajectory self) (pos (target self))
                  (current_time params) (speed self) = OK p /\
  self' = mkMovingCircle (mkCircle p 0) (speed self) (trajectory self).
Proof.
  unfold MovingCircle_update; intros H.
  destruct (update_position _ _ _ _) as [q |] eqn:Hq; [| discriminate].
  cbn [bind] in H.
  rewrite (update_orientation_bearing _ _ _ _ q
             (update_position_again _ _ _ _ _ Hq)) in H.
  cbn [bind] in H; rewrite bearing_zero_vector in H.
  injection H as <- <-; auto.
Qed.

Lemma MovingCircle_update_result_witness :
  update_position (trajectory rising_circle) (pos (target rising_circle))
                  (current_time (mkParams 1 1 false)) (speed rising_circle)
    = OK (0, 10 * 1 - 50) /\
  mkMovingCircle (mkCircle (0, 10 * 1 - 50) 0) 10 (VerticalTrajectory 50 "up")
    = mkMovingCircle (mkCircle (0, 10 * 1 - 50) 0) (speed rising_circle)
                     (trajectory rising_circle).
Proof.
  apply (MovingCircle_update_result rising_circle _ (mkParams 1 1 false)).
  destruct (MovingCircle_update_orientation_zero rising_circle
              (mkParams 1 1 false) eq_refl) as (p & Hp & Hup).
  cbn in Hp; injection Hp as <-; exact Hup.
Defined.

(** ** The circular trajectory *)

Lemma cos2_sin2_scaled (a x : R) :
  (a * cos x) * (a * cos x) + (a * sin x) * (a * sin x) = a * a.
Proof.
  pose proof (sin2_cos2 x) as H; unfold Rsqr in H.
  replace ((a * cos x) * (a * cos x) + (a * sin x) * (a * sin x))
    with (a * a * (sin x * sin x + cos x * cos x)) by ring.
  rewrite H; ring.
Qed.

(** On a monitor with positive geometry the clockwise trajectory stays on
    the circle of radius [radius] around the centre, and the
    counterclockwise one on the circle of radius [radius] times the pixels
    per degree. *)
Theorem circular_trajectory_radii (m : Monitor) (radius start : R)
    (cur : R * R) (time_step speed : R) :
  positive_geometry m ->
  exists p_clock p_counter,
    update_position (CircularTrajectory m radius "clockwise" start) cur
                    time_step speed = OK p_clock /\
    update_position (CircularTrajectory m radius "counterclockwise" start)
                    cur time_step speed = OK p_counter /\
    fst p_clock * fst p_clock + snd p_clock * snd p_clock
      = radius * radius /\
    fst p_counter * fst p_counter + snd p_counter * snd p_counter
      = (pixels_per_degree m * radius) * (pixels_per_degree m * radius).
Proof.
  intros Hm.
  destruct (conversions_scale_aux m Hm) as (Hc & Hdeg).
  cbn [update_position String.eqb Ascii.eqb Bool.eqb].
  rewrite !Hdeg; cbn [bind].
  do 2 eexists; repeat split; cbn [fst snd].
  - rewrite <- (cos2_sin2_scaled radius
                  (radians (time_step * (pixels_per_degree m * speed)
                            - start))).
    ring.
  - rewrite <- (cos2_sin2_scaled (pixels_per_degree m * radius)
                  (radians (time_step * speed - start))).
    ring.
Qed.

Lemma circular_trajectory_radii_witness :
  exists p_clock p_counter,
    update_position (CircularTrajectory double_monitor 100 "clockwise" 0)
                    (0, 0) 1 30 = OK p_clock /\
    update_position
      (CircularTrajectory double_monitor 100 "counterclockwise" 0)
      (0, 0) 1 30 = OK p_counter /\
    fst p_clock * fst p_clock + snd p_clock * snd p_clock = 100 * 100 /\
    fst p_counter * fst p_counter + snd p_counter * snd p_counter
      = (pixels_per_degree double_monitor * 100)
        * (pixels_per_degree double_monitor * 100).
Proof.
  exact (circular_trajectory_radii double_monitor 100 0 (0, 0) 1 30
           double_monitor_positive).
Defined.

Lemma radians_full_turn (x : R) : radians (x + 360) = radians x + 2 * INR 1 * PI.
Proof. unfold radians; cbn [INR]; field. Qed.

(** For a speed that is not zero, on a monitor with positive geometry, the
    counterclockwise trajectory returns the same position 360 / speed
    seconds later (the required seconds of a circular trial are one turn),
    and the clockwise one 360 / (pixels per degree * speed) seconds later
    (it makes as many turns as a degree has pixels in those seconds). *)
Theorem circular_trajectory_periods (m : Monitor) (radius start : R)
    (cur : R * R) (time_step speed : R) :
  positive_geometry m -> speed <> 0 ->
  update_position (CircularTrajectory m radius "counterclockwise" start) cur
                  (time_step + 360 / speed) speed
    = update_position (CircularTrajectory m radius "counterclockwise" start)
                      cur time_step speed /\
  update_position (CircularTrajectory m radius "clockwise" start) cur
                  (time_step + 360 / (pixels_per_degree m * speed)) speed
    = update_position (CircularTrajectory m radius "clockwise" start)
                      cur time_step speed.
Proof.
  intros Hm Hs.
  destruct (conversions_scale_aux m Hm) as (Hc & Hdeg).
  cbn [update_position String.eqb Ascii.eqb Bool.eqb].
  rewrite !Hdeg; cbn [bind]; split.
  - replace ((time_step + 360 / speed) * speed - start)
      with (time_step * speed - start + 360) by (field; assumption).
    rewrite radians_full_turn, cos_period, sin_period; reflexivity.
  - replace ((time_step + 360 / (pixels_per_degree m * speed))
             * (pixels_per_degree m * speed) - start)
      with (time_step * (pixels_per_degree m * speed) - start + 360)
      by (field; split; [assumption | lra]).
    rewrite radians_full_turn, cos_period, sin_period; reflexivity.
Qed.

Lemma circular_trajectory_periods_witness :
  update_position (CircularTrajectory double_monitor 100 "counterclockwise" 0)
                  (0, 0) (0 + 360 / 30) 30
    = update_position
        (CircularTrajectory double_monitor 100 "counterclockwise" 0)
        (0, 0) 0 30.
Proof.
  apply (circular_trajectory_periods double_monitor 100 0 (0, 0) 0 30
           double_monitor_positive).
  lra.
Defined.

(** ** Update frequencies at their edges *)

(** The only exception of [update_position] is the ZeroDivisionError of a
    conversion. *)
Lemma update_position_raises (t : Trajectory) (cur : R * R)
    (time_step speed : R) (e : exn) :
  update_position t cur time_step speed = Raise e -> e = ZeroDivisionError.
Proof.
  destruct t as [h d | h d | h d | m r d st]; unfold update_position.
  - destruct (String.eqb d "left"); discriminate.
  - destruct (String.eqb d "up"); discriminate.
  - destruct (String.eqb d "up_right"); [discriminate |].
    destruct (String.eqb d "up_left"); [discriminate |].
    destruct (String.eqb d "down_right"); discriminate.
  - destruct (String.eqb d "clockwise"); unfold deg_to_px, div.
    + destruct (Req_EM_T _ 0); cbn [bind]; intros H;
        [injection H as <-; reflexivity | discriminate].
    + destruct (Req_EM_T _ 0); cbn [bind]; intros H;
        [injection H as <-; reflexivity | discriminate].
Qed.

(** With an update frequency of 0 every update of a jumping circle, of a
    back-and-forth array and of a swarm raises ZeroDivisionError, whatever
    the frame; with no update frequency the jumping circle and the swarm are
    never changed, not even by a final update, and the array keeps its
    offsets and its toggle. *)
Theorem update_frequency_zero_or_none :
  (forall self params,
      update_frequency self = Some 0%Z ->
      JumpingCircle_update self params = Raise ZeroDivisionError) /\
  (forall self params,
      array_update_frequency self = Some 0%Z ->
      BackAndForthArray_update self params = Raise ZeroDivisionError) /\
  (forall random self params draws,
      swarm_update_frequency self = Some 0%Z ->
      SwarmStimulus_update random self params draws
        = Raise ZeroDivisionError) /\
  (forall self params,
      update_frequency self = None ->
      JumpingCircle_update self params
        = OK (self, pos (target (circle self)))) /\
  (forall random self params draws,
      swarm_update_frequency self = None ->
      SwarmStimulus_update random self params draws = OK (self, draws)) /\
  (forall self params self' p,
      array_update_frequency self = None ->
      BackAndForthArray_update self params = OK (self', p) ->
      xys (array_target self') = xys (array_target self) /\
      back self' = back self).
Proof.
  split; [| split; [| split; [| split; [| split]]]].
  - intros self params Hk; unfold JumpingCircle_update; rewrite Hk.
    reflexivity.
  - intros self params Hk; unfold BackAndForthArray_update.
    destruct (update_position _ _ _ _) as [q | e] eqn:Hq.
    + cbn [bind set_fieldPos array_update_frequency]; rewrite Hk.
      reflexivity.
    + apply update_position_raises in Hq; subst e; reflexivity.
  - intros random self params draws Hk; unfold SwarmStimulus_update.
    rewrite Hk; reflexivity.
  - intros self params Hk; unfold JumpingCircle_update; rewrite Hk.
    reflexivity.
  - intros random self params draws Hk; unfold SwarmStimulus_update.
    rewrite Hk; reflexivity.
  - intros self params self' p Hk H.
    unfold BackAndForthArray_update in H.
    destruct (update_position _ _ _ _) as [q |]; [| discriminate].
    cbn [bind set_fieldPos array_update_frequency] in H; rewrite Hk in H.
    cbn [bind] in H.
    destruct (xys _) eqn:Hx; [discriminate |].
    injection H as <- _; cbn; split; [exact Hx | reflexivity].
Qed.

Lemma update_frequency_zero_or_none_witness :
  JumpingCircle_update
    (mkJumpingCircle (circle resting_jumper) (Some 0%Z))
    (mkParams 0.5 1 true) = Raise ZeroDivisionError.
Proof.
  apply (proj1 update_frequency_zero_or_none).
  reflexivity.
Defined.

(** ** The jumping circle that jumps in every frame *)

(** With an update frequency of 1 (or of -1) the jumping circle is updated
    in every call, like a moving circle: it returns what
    [MovingCircle.update] returns on its circle. *)
Theorem jumping_circle_every_frame (self : JumpingCircle) (params : Params)
    (k : Z) :
  update_frequency self = Some k -> (k = 1 \/ k = -1)%Z ->
  JumpingCircle_update self params =
    ('(c, p) <- MovingCircle_update (circle self) params ;;
     OK (mkJumpingCircle c (Some k), p)).
Proof.
  intros Hk Hone; unfold JumpingCircle_update; rewrite Hk.
  rewrite pymod_ok by lia; cbn [bind].
  assert (Hm : (current_frame params mod k =? 0)%Z = true).
  { apply Z.eqb_eq; destruct Hone as [-> | ->];
      [apply Z.mod_1_r | apply Z.mod_divide; [lia |]].
    exists (- current_frame params)%Z; lia. }
  rewrite Hm; cbn [orb].
  destruct (MovingCircle_update (circle self) params) as [[c q] |] eqn:Hc;
    [| reflexivity].
  cbn [bind]; apply MovingCircle_update_inv in Hc as (_ & -> & _ & _).
  reflexivity.
Qed.

Lemma jumping_circle_every_frame_witness :
  JumpingCircle_update (mkJumpingCircle (circle resting_jumper) (Some 1%Z))
                       (mkParams 0.5 2 false) =
    ('(c, p) <- MovingCircle_update (circle resting_jumper)
                                    (mkParams 0.5 2 false) ;;
     OK (mkJumpingCircle c (Some 1%Z), p)).
Proof.
  apply (jumping_circle_every_frame
           (mkJumpingCircle (circle resting_jumper) (Some 1%Z))
           (mkParams 0.5 2 false) 1 eq_refl).
  left; reflexivity.
Defined.

(** ** The offsets of the back-and-forth array *)

Lemma back_and_forth_set_xys (self : BackAndForthArray)
    (v : list (R * R)) (b : bool) :
  back_and_forth (set_xys self v b) = back_and_forth self.
Proof.
  unfold back_and_forth, set_xys;
    cbn [array_trajectory array_target fieldSize fieldPos].
  reflexivity.
Qed.

Lemma back_and_forth_known (self : BackAndForthArray) :
  known_direction (array_trajectory self) = true ->
  exists b f,
    back_and_forth self = OK ([b], [f]) /\
    fst f = - fst b /\
    (non_circular (array_trajectory self) = true -> snd f = - snd b) /\
    (non_circular (array_trajectory self) = false -> snd f = snd b).
Proof.
  unfold back_and_forth, known_direction, non_circular.
  destruct (array_trajectory self) as [h d | h d | h d | m r d st];
    intros Hk.
  - do 2 eexists; split; [reflexivity |]; cbn [fst snd].
    repeat split; intros; try discriminate; lra.
  - do 2 eexists; split; [reflexivity |]; cbn [fst snd].
    repeat split; intros; try discriminate; lra.
  - cbn [existsb] in Hk.
    destruct (String.eqb d "up_right");
      [| destruct (String.eqb d "up_left");
         [| destruct (String.eqb d "down_right");
            [| destruct (String.eqb d "down_left");
               [| discriminate]]]];
      do 2 eexists; (split; [reflexivity |]); cbn [fst snd];
      repeat split; intros; try discriminate; lra.
  - do 2 eexists; split; [reflexivity |]; cbn [fst snd].
    repeat split; intros; try discriminate; lra.
Qed.

(** For every trajectory a constructor can return, [update_xys] never
    raises; two calls in a row (the field not moving in between) set the
    offset first to the one the toggle selects and then to the other one, and
    bring the toggle back.  The two offsets are opposite vectors on a linear
    trajectory; on a circular one they have opposite x but the same y. *)
Theorem update_xys_alternates (self : BackAndForthArray) :
  known_direction (array_trajectory self) = true ->
  exists b f s1 s2,
    back_and_forth self = OK ([b], [f]) /\
    update_xys self = OK s1 /\ update_xys s1 = OK s2 /\
    xys (array_target s1) = (if back self then [b] else [f]) /\
    xys (array_target s2) = (if back self then [f] else [b]) /\
    back s1 = negb (back self) /\ back s2 = back self /\
    fst f = - fst b /\
    (non_circular (array_trajectory self) = true -> snd f = - snd b) /\
    (non_circular (array_trajectory self) = false -> snd f = snd b).
Proof.
  intros Hk.
  destruct (back_and_forth_known self Hk) as (b & f & Hbf & Hx & Hy & Hy').
  exists b, f.
  unfold update_xys at 1; rewrite Hbf; cbn [bind].
  destruct (back self) eqn:Hb.
  - exists (set_xys self [b] false).
    unfold update_xys; rewrite back_and_forth_set_xys, Hbf; cbn [bind].
    exists (set_xys (set_xys self [b] false) [f] true).
    cbn [set_xys back array_target xys negb]; auto 12.
  - exists (set_xys self [f] true).
    unfold update_xys; rewrite back_and_forth_set_xys, Hbf; cbn [bind].
    exists (set_xys (set_xys self [f] true) [b] false).
    cbn [set_xys back array_target xys negb]; auto 12.
Qed.

Lemma update_xys_alternates_witness :
  exists b f s1 s2,
    back_and_forth small_array = OK ([b], [f]) /\
    update_xys small_array = OK s1 /\ update_xys s1 = OK s2 /\
    xys (array_target s1) = (if back small_array then [b] else [f]) /\
    xys (array_target s2) = (if back small_array then [f] else [b]) /\
    back s1 = negb (back small_array) /\ back s2 = back small_array /\
    fst f = - fst b /\
    (non_circular (array_trajectory small_array) = true ->
     snd f = - snd b) /\
    (non_circular (array_trajectory small_array) = false -> snd f = snd b).
Proof.
  exact (update_xys_alternates small_array eq_refl).
Defined.

(** ** The visible elements of a swarm *)

Lemma setitem_one_visible (l l' : list Z) (j : nat) :
  setitem l j 1%Z = OK l' -> (1 <= visible l')%nat.
Proof.
  revert l' j; induction l as [| x l IH]; intros l' j H; [discriminate |].
  destruct j as [| j]; cbn in H.
  - injection H as <-; unfold visible; cbn.
    destruct (Z.eq_dec 1 1); [lia | contradiction].
  - destruct (setitem l j 1%Z) as [l'' |] eqn:Hset; [| discriminate].
    cbn in H; injection H as <-.
    apply IH in Hset; unfold visible in *; cbn.
    destruct (Z.eq_dec x 1); lia.
Qed.

Lemma setitem_fresh (l l' : list Z) (j : nat) :
  nth j l 0%Z <> 1%Z -> setitem l j 1%Z = OK l' ->
  visible l' = S (visible l) /\
  forall i, i <> j -> nth i l' 0%Z = nth i l 0%Z.
Proof.
  revert l' j; induction l as [| x l IH]; intros l' j Hn H; [discriminate |].
  destruct j as [| j]; cbn in H, Hn.
  - injection H as <-; unfold visible; cbn; split.
    + destruct (Z.eq_dec x 1); [contradiction |].
      destruct (Z.eq_dec 1 1); [reflexivity | contradiction].
    + intros [| i] Hi; [contradiction | reflexivity].
  - destruct (setitem l j 1%Z) as [l'' |] eqn:Hset; [| discriminate].
    cbn in H; injection H as <-.
    destruct (IH _ _ Hn Hset) as (Hv & Hnth); split.
    + unfold visible in *; cbn; destruct (Z.eq_dec x 1); lia.
    + intros [| i] Hi; cbn; [reflexivity | apply Hnth; lia].
Qed.

Lemma turn_on_distinct (random : nat -> nat) (count : nat) (n : Z) :
  forall ops ops' draws draws',
    turn_on random count n ops draws = OK (ops', draws') ->
    NoDup (drawn random n draws count) ->
    (forall j, In j (drawn random n draws count) -> nth j ops 0%Z <> 1%Z) ->
    visible ops' = (visible ops + count)%nat.
Proof.
  induction count as [| count IH]; intros ops ops' draws draws' H Hnd Hz.
  - cbn in H; injection H as <- _; lia.
  - cbn in H; unfold choice in H.
    destruct (n <=? 0)%Z; [discriminate |]; cbn [bind] in H.
    destruct (setitem ops _ 1%Z) as [ops1 |] eqn:Hset; [| discriminate].
    cbn [bind] in H; cbn [drawn] in Hnd, Hz.
    apply NoDup_cons_iff in Hnd as (Hnotin & Hnd).
    apply setitem_fresh in Hset as (Hv & Hother);
      [| apply Hz; left; reflexivity].
    rewrite (IH _ _ _ _ H Hnd), Hv; [lia |].
    intros j Hj; rewrite Hother.
    + apply Hz; right; exact Hj.
    + intros ->; contradiction.
Qed.

Lemma nth_zeros (m j : nat) : nth j (repeat 0%Z m) 0%Z = 0%Z.
Proof.
  revert j; induction m as [| m IH]; intros [| j]; cbn; auto.
Qed.

Lemma turn_on_at_least_one (random : nat -> nat) (count : nat) (n : Z)
    (ops ops' : list Z) (draws draws' : nat) :
  turn_on random (S count) n ops draws = OK (ops', draws') ->
  (1 <= visible ops')%nat.
Proof.
  cbn [turn_on]; unfold choice.
  destruct (n <=? 0)%Z; [discriminate |]; cbn [bind].
  destruct (setitem ops _ 1%Z) as [ops1 |] eqn:Hset; [| discriminate].
  cbn [bind]; intros H.
  apply setitem_one_visible in Hset.
  apply turn_on_visible in H as (_ & _ & Hv); lia.
Qed.

(** When the library builds the element array and the swarm has at least
    one slot, the swarm is constructed without an exception, after one draw
    per active element, with [n] opacities of which at most [n_active], and
    at least one when [n_active] is positive, are 1. *)
Theorem swarm_construction (random : nat -> nat)
    (ElementArrayStim : Z -> result unit) (n_elements n_active : Z)
    (k : option Z) (draws : nat) :
  ElementArrayStim n_elements = OK tt ->
  (0 < n_elements)%Z ->
  exists ops,
    SwarmStimulus_init random ElementArrayStim n_elements n_active k draws
      = OK (mkSwarmStimulus n_elements n_active k ops,
            (draws + Z.to_nat n_active)%nat) /\
    List.length ops = Z.to_nat n_elements /\
    (visible ops <= Z.to_nat n_active)%nat /\
    ((0 < n_active)%Z -> (1 <= visible ops)%nat).
Proof.
  intros Hbuilt Hn.
  unfold SwarmStimulus_init, resample; rewrite Hbuilt.
  cbn [bind n Stimuli.n_active swarm_update_frequency].
  destruct (turn_on_ok random (Z.to_nat n_active) n_elements
              (repeat 0%Z (Z.to_nat n_elements)) draws Hn
              (repeat_length _ _)) as (ops & draws' & Hon).
  rewrite Hon; cbn [bind].
  pose proof (turn_on_visible _ _ _ _ _ _ _ Hon) as (Hlen & -> & Hvis).
  rewrite repeat_length in Hlen; rewrite visible_zeros in Hvis.
  exists ops; repeat split; auto; try lia.
  intros Hpos.
  destruct (Z.to_nat n_active) as [| c] eqn:Hc; [lia |].
  eapply turn_on_at_least_one; exact Hon.
Qed.

Lemma swarm_construction_witness :
  exists ops,
    SwarmStimulus_init constant_draws elements_built 3 2 None 0
      = OK (mkSwarmStimulus 3 2 None ops, (0 + Z.to_nat 2)%nat) /\
    List.length ops = Z.to_nat 3 /\
    (visible ops <= Z.to_nat 2)%nat /\
    ((0 < 2)%Z -> (1 <= visible ops)%nat).
Proof.
  apply (swarm_construction constant_draws elements_built 3 2 None 0);
    reflexivity.
Defined.

(** When the indices drawn in a resampling are pairwise distinct, exactly
    [n_active] elements are visible afterwards. *)
Theorem swarm_distinct_draws (random : nat -> nat) (self self' : SwarmStimulus)
    (draws draws' : nat) :
  NoDup (drawn random (n self) draws (Z.to_nat (n_active self))) ->
  resample random self draws = OK (self', draws') ->
  visible (opacities self') = Z.to_nat (n_active self).
Proof.
  intros Hnd; unfold resample.
  destruct (turn_on random _ _ _ _) as [[ops d] |] eqn:Hon; [| discriminate].
  cbn [bind]; intros H; injection H as <- _; cbn [opacities].
  rewrite (turn_on_distinct _ _ _ _ _ _ _ Hon Hnd).
  - rewrite visible_zeros; reflexivity.
  - intros j _; rewrite nth_zeros; discriminate.
Qed.

Lemma swarm_distinct_draws_witness :
  visible (opacities (mkSwarmStimulus 3 2 None [1%Z; 1%Z; 0%Z]))
    = Z.to_nat (n_active (mkSwarmStimulus 3 2 None [])).
Proof.
  apply (swarm_distinct_draws (fun i => i)
           (mkSwarmStimulus 3 2 None [])
           (mkSwarmStimulus 3 2 None [1%Z; 1%Z; 0%Z]) 0 2).
  - cbn; apply NoDup_cons; [intros [H | []]; discriminate |].
    apply NoDup_cons; [intros [] | apply NoDup_nil].
  - reflexivity.
Defined.

(** ** The trace of the frame loop *)

Section FrameLoopTrace.

Variable S : Type.
Variable update : S -> Params -> result (S * (R * R)).
Variable M : Type.
Variable trial_clock : nat -> R.
Variable experiment_clock : nat -> R.
Variable quit_pressed : nat -> bool.

Lemma frame_loop_trace (fuel : nat) :
  forall extra (self self' : SPTrialSection S M) calls calls' frame frame'
         rows rows',
    frame_loop S update M trial_clock experiment_clock quit_pressed fuel
               extra self calls frame rows
      = Some (OK (self', calls', frame', rows')) ->
    exists n new_rows frames,
      calls' = (calls + 3 * n + 1)%nat /\
      frame' = (frame + Z.of_nat n)%Z /\
      rows' = (rows ++ new_rows)%list /\
      log self' = (log self ++ frames)%list /\
      updates_of frames
        = map (loop_params trial_clock (time_offset self) calls frame)
              (seq 0 n) /\
      map row_stamp new_rows
        = map (fun i => (data self,
                         experiment_clock (experiment_clock_calls self + i),
                         trial_clock (calls + 3 * i + 2)))
              (seq 0 n) /\
      (forall i, (i < n)%nat ->
                 trial_clock (calls + 3 * i) < req_sec self /\
                 quit_pressed (key_polls self + i) = false) /\
      ~ trial_clock (calls + 3 * n) < req_sec self /\
      experiment_clock_calls self' = (experiment_clock_calls self + n)%nat /\
      key_polls self' = (key_polls self + n)%nat /\
      time_offset self' = time_offset self /\
      trial_number self' = trial_number self.
Proof.
  induction fuel as [| fuel IH];
    intros extra self self' calls calls' frame frame' rows rows' H;
    [discriminate |].
  cbn [frame_loop] in H.
  destruct (Rlt_dec _ _) as [Hlt | Hge].
  - destruct (update _ _) as [[s tp] |] eqn:Hup; [| discriminate].
    destruct (quit_pressed (key_polls self)) eqn:Hq; [discriminate |].
    apply IH in H
      as (n & new_rows & frames & Hc & Hf & Hr & Hlog & Hu & Hs & Hall & Hex
          & Hec & Hkp & Hto & Htn).
    cbn [log emit stimulus trial_number time_offset req_sec data
         experiment_clock_calls key_polls] in *.
    exists (Datatypes.S n).
    eexists (_ :: new_rows), (_ ++ frames)%list.
    split; [lia |]. split; [lia |].
    split; [rewrite Hr, <- app_assoc; reflexivity |].
    split; [rewrite Hlog, <- app_assoc; reflexivity |].
    split.
    { rewrite updates_of_app, <- !app_assoc; cbn [updates_of app].
      rewrite updates_of_app, updates_of_extra_draws; cbn [updates_of app].
      rewrite Hu; cbn [seq map]; f_equal.
      - unfold loop_params; f_equal; [do 2 f_equal; lia | lia].
      - rewrite <- seq_shift, map_map; apply map_ext; intros i.
        unfold loop_params; f_equal; [do 2 f_equal; lia | lia]. }
    split.
    { cbn [seq map]; f_equal.
      - unfold row_stamp; cbn; do 2 f_equal; f_equal; lia.
      - rewrite Hs, <- seq_shift, map_map; apply map_ext; intros i.
        do 2 f_equal; f_equal; lia. }
    split.
    { intros [| i] Hi.
      - replace (calls + 3 * 0)%nat with calls by lia.
        replace (key_polls self + 0)%nat with (key_polls self) by lia.
        auto.
      - destruct (Hall i) as (Hi1 & Hi2); [lia |].
        replace (calls + 3 * Datatypes.S i)%nat with (calls + 3 + 3 * i)%nat
          by lia.
        replace (key_polls self + Datatypes.S i)%nat
          with (key_polls self + 1 + i)%nat by lia.
        auto. }
    split.
    { replace (calls + 3 * Datatypes.S n)%nat with (calls + 3 + 3 * n)%nat
        by lia.
      exact Hex. }
    repeat split; try assumption; lia.
  - injection H as <- <- <- <-.
    exists 0%nat, [], []; cbn [seq map Z.of_nat].
    replace (calls + 3 * 0)%nat with calls by lia.
    rewrite !app_nil_r, !Nat.add_0_r, Z.add_0_r.
    repeat split; auto; try (exfalso; lia).
Qed.

End FrameLoopTrace.

(** The loop of [move_target] and what follows it, for the proofs below. *)
Lemma move_target_inv (S M : Type)
    (update : S -> Params -> result (S * (R * R)))
    (trial_clock experiment_clock : nat -> R) (quit_pressed : nat -> bool)
    (fuel extra_draws : nat) (self self' : SPTrialSection S M)
    (rows : list (Row M)) :
  move_target S update M trial_clock experiment_clock quit_pressed fuel
              extra_draws self = Some (OK (self', rows)) ->
  exists self1 calls frame s tp,
    frame_loop S update M trial_clock experiment_clock quit_pressed fuel
               extra_draws
               (emit self [EStartTrial (trial_number self)] (stimulus self)
                     (experiment_clock_calls self) (key_polls self))
               0%nat 0%Z []
      = Some (OK (self1, calls, frame, rows)) /\
    update (stimulus self1)
           (mkParams (trial_clock calls + time_offset self1) frame true)
      = OK (s, tp) /\
    self' = emit self1
              [EUpdate (mkParams (trial_clock calls + time_offset self1)
                                 frame true);
               EDraw s; EFlip; EWait 0.2; EEndTrial (trial_number self1)]
              s (experiment_clock_calls self1) (key_polls self1).
Proof.
  unfold move_target; intros H.
  destruct (frame_loop _ _ _ _ _ _ _ _ _ _ _ _)
    as [[[[[self1 calls] frame] rows1] | e] |]; try discriminate.
  destruct (update (stimulus self1) _) as [[s tp] |] eqn:Hup;
    [| discriminate].
  injection H as <- <-.
  exists self1, calls, frame, s, tp; auto.
Qed.

(** In a trial that returns [n] rows the updates were issued, in this order,
    for the frames 1, 2, ..., n, not final, each at the second reading of
    the trial clock in its frame plus the time offset, and then once more
    for frame [n], final, at the reading after the loop; the readings at the
    head of the loop were below the required seconds [n] times and then not;
    and a trial whose first reading is not below the required seconds
    returns no row. *)
Theorem move_target_schedule (S M : Type)
    (update : S -> Params -> result (S * (R * R)))
    (trial_clock experiment_clock : nat -> R) (quit_pressed : nat -> bool)
    (fuel extra_draws : nat) (self self' : SPTrialSection S M)
    (rows : list (Row M)) :
  move_target S update M trial_clock experiment_clock quit_pressed fuel
              extra_draws self = Some (OK (self', rows)) ->
  updates_of (log self')
    = (updates_of (log self)
       ++ map (loop_params trial_clock (time_offset self) 0 0)
              (seq 0 (List.length rows))
       ++ [mkParams (trial_clock (3 * List.length rows + 1)%nat
                     + time_offset self)
                    (Z.of_nat (List.length rows)) true])%list /\
  (forall i, (i < List.length rows)%nat ->
             trial_clock (3 * i)%nat < req_sec self) /\
  ~ trial_clock (3 * List.length rows)%nat < req_sec self /\
  (~ trial_clock 0%nat < req_sec self -> rows = []).
Proof.
  intros H.
  apply move_target_inv in H
    as (self1 & calls & frame & s & tp & Hloop & Hup & ->).
  apply frame_loop_trace in Hloop
    as (n & new_rows & frames & Hc & Hf & Hr & Hlog & Hu & Hs & Hall & Hex
        & Hec & Hkp & Hto & Htn).
  cbn [log emit stimulus trial_number time_offset req_sec data
       experiment_clock_calls key_polls app Nat.add] in *.
  assert (Hn : List.length rows = n).
  { rewrite Hr, <- (length_map row_stamp), Hs, length_map, length_seq.
    reflexivity. }
  rewrite Hn; split; [| split; [| split]].
  - rewrite Hlog, !updates_of_app; cbn [updates_of app].
    rewrite Hu, Hto, Hc, Hf, <- !app_assoc; cbn [app].
    do 4 f_equal.
  - intros i Hi; apply Hall; exact Hi.
  - exact Hex.
  - intros H0; destruct n as [| n]; [now destruct rows |].
    destruct (Hall 0%nat) as (Hlt & _); [lia |].
    contradiction.
Qed.

Lemma move_target_schedule_witness :
  updates_of (log sample_end)
    = (updates_of (log sample_trial)
       ++ map (loop_params sample_clock (time_offset sample_trial) 0 0)
              (seq 0 (List.length [sample_row]))
       ++ [mkParams (sample_clock (3 * List.length [sample_row] + 1)%nat
                     + time_offset sample_trial)
                    (Z.of_nat (List.length [sample_row])) true])%list /\
  (forall i, (i < List.length [sample_row])%nat ->
             sample_clock (3 * i)%nat < req_sec sample_trial) /\
  ~ sample_clock (3 * List.length [sample_row])%nat < req_sec sample_trial /\
  (~ sample_clock 0%nat < req_sec sample_trial -> [sample_row] = []).
Proof.
  exact (move_target_schedule MovingCircle unit MovingCircle_update
           sample_clock (fun _ => 0) (fun _ => false) 2 0 sample_trial
           sample_end [sample_row] sample_trial_run).
Defined.

(** * The jumping circle in a trial *)

(** ** The gate of the jumping circle *)





(** ** Sequences of updates *)

Section RunStates.

Variable S : Type.
Variable update : S -> Params -> result (S * (R * R)).






Variable M : Type.
Variable trial_clock : nat -> R.
Variable experiment_clock : nat -> R.
Variable quit_pressed : nat -> bool.


End RunStates.



(** ** A trial of two frames *)



(** ** The first update of a counterclockwise jumping circle *)







(** ** The gate in a call and in a trial *)



(** * The instruction before a trial *)

(** For a circular trajectory name (and a target type the instruction has a
    text for), [draw_arrow_and_target] raises the ValueError of
    [draw_instruction_arrow], before the target is updated. *)
Theorem circular_instruction_raises (stimulus : Stimulus)
    (target_trajectory target_type : string) (time_offset : R) :
  In target_trajectory ["cir_clock"; "cir_counter"] ->
  In target_type ["moving_circle"; "jumping_circle"; "back_and_forth_array"] ->
  draw_arrow_and_target stimulus target_trajectory target_type time_offset
    = Raise ValueError.
Proof.
  intros Htraj Htype.
  destruct Htraj as [<- | [<- | []]];
    destruct Htype as [<- | [<- | [<- | []]]]; reflexivity.
Qed.

Lemma circular_instruction_raises_witness :
  draw_arrow_and_target ((400, 0), TJumpingCircle circling_jumper)
                        "cir_counter" "jumping_circle" 0
    = Raise ValueError.
Proof.
  apply (circular_instruction_raises
           ((400, 0), TJumpingCircle circling_jumper)
           "cir_counter" "jumping_circle" 0).
  - right; left; reflexivity.
  - right; left; reflexivity.
Defined.





